(** * Mini gacha game: a shallow embedding of [game.py]

    The class [GachaGame] keeps one mutable dictionary, [self.player_data],
    reads the wall clock and the random generator, and writes the dictionary
    to a JSON file.  The embedding threads all of that through one explicit
    state, with a small state-and-exception monad. *)

From Stdlib Require Import ZArith List String Bool Arith Lia.
Import ListNotations.
Local Open Scope string_scope.
Local Open Scope Z_scope.

(** ** Data *)

(** The dictionary [player_data].  Its numbers are Python integers, hence
    [Z].  [last_reset_time] is stored as the ISO text of a naive [datetime];
    [isoformat] and [fromisoformat] are inverse to each other on such
    values, so the field is kept as the instant itself, counted in
    microseconds (the resolution of [datetime]). *)
Record PlayerData : Type := mkPlayerData {
  balance : Z;
  tokens : Z;
  attempts_left : Z;
  last_reset_time : Z;
  total_wins : Z;
  total_losses : Z
}.

(** What surrounds the object: the save file, the clock and the random
    generator.  [disk] is the content of [save_file] ([None]: no such file);
    [writes] logs every record [save_data] has dumped, newest first;
    [clock k] is what the [k]-th call of [datetime.now()] returns and
    [ticks] counts the calls made so far; [rng] and [draws] do the same for
    the random generator. *)
Record World : Type := mkWorld {
  disk : option PlayerData;
  writes : list PlayerData;
  clock : nat -> Z;
  ticks : nat;
  rng : nat -> nat;
  draws : nat
}.

(** An instance of [GachaGame] in its world. *)
Record GachaGame : Type := mkGame {
  player_data : PlayerData;
  world : World
}.

(** ** The monad: state, and exceptions that keep the state *)

Inductive exn : Type := IndexError.

Inductive res (A : Type) : Type :=
| Ok (a : A)
| Raise (e : exn).
Arguments Ok {A} a.
Arguments Raise {A} e.

Definition M (A : Type) : Type := GachaGame -> res A * GachaGame.

Definition ret {A} (a : A) : M A := fun g => (Ok a, g).

Definition bind {A B} (c : M A) (k : A -> M B) : M B :=
  fun g => match c g with
           | (Ok a, g') => k a g'
           | (Raise e, g') => (Raise e, g')
           end.

Definition raise {A} (e : exn) : M A := fun g => (Raise e, g).

Notation "x <- c ;; k" := (bind c (fun x => k))
  (at level 61, c at next level, right associativity).
Notation "c ;; k" := (bind c (fun _ => k))
  (at level 61, right associativity).

Definition get_data : M PlayerData := fun g => (Ok (player_data g), g).

Definition set_data (d : PlayerData) : M unit :=
  fun g => (Ok tt, mkGame d (world g)).

(** Updates of one key of the dictionary. *)
Definition with_balance (v : Z) (d : PlayerData) : PlayerData :=
  mkPlayerData v (tokens d) (attempts_left d) (last_reset_time d)
               (total_wins d) (total_losses d).
Definition with_tokens (v : Z) (d : PlayerData) : PlayerData :=
  mkPlayerData (balance d) v (attempts_left d) (last_reset_time d)
               (total_wins d) (total_losses d).
Definition with_attempts_left (v : Z) (d : PlayerData) : PlayerData :=
  mkPlayerData (balance d) (tokens d) v (last_reset_time d)
               (total_wins d) (total_losses d).
Definition with_last_reset_time (v : Z) (d : PlayerData) : PlayerData :=
  mkPlayerData (balance d) (tokens d) (attempts_left d) v
               (total_wins d) (total_losses d).
Definition with_total_wins (v : Z) (d : PlayerData) : PlayerData :=
  mkPlayerData (balance d) (tokens d) (attempts_left d) (last_reset_time d)
               v (total_losses d).
Definition with_total_losses (v : Z) (d : PlayerData) : PlayerData :=
  mkPlayerData (balance d) (tokens d) (attempts_left d) (last_reset_time d)
               (total_wins d) v.

(** [self.player_data[key] = ...] *)
Definition update (f : PlayerData -> PlayerData) : M unit :=
  fun g => (Ok tt, mkGame (f (player_data g)) (world g)).

(** ** The clock, the generator and the file *)

(** [timedelta(minutes=m)], in microseconds. *)
Definition timedelta_minutes (m : Z) : Z := m * 60 * 1000000.
Arguments timedelta_minutes : simpl never.

Definition tick (w : World) : World :=
  mkWorld (disk w) (writes w) (clock w) (S (ticks w)) (rng w) (draws w).

Definition draw (w : World) : World :=
  mkWorld (disk w) (writes w) (clock w) (ticks w) (rng w) (S (draws w)).

Definition dump (d : PlayerData) (w : World) : World :=
  mkWorld (Some d) (d :: writes w) (clock w) (ticks w) (rng w) (draws w).

(** [datetime.now()] *)
Definition datetime_now : M Z :=
  fun g => (Ok (clock (world g) (ticks (world g))),
            mkGame (player_data g) (tick (world g))).

(** [random.choice(seq)]: an index below [len(seq)], then [seq[i]];
    [IndexError] on an empty sequence. *)
Definition random_choice {A} (seq : list A) : M A :=
  fun g =>
    let w := world g in
    match nth_error seq (rng w (draws w) mod List.length seq)%nat with
    | Some x => (Ok x, mkGame (player_data g) (draw w))
    | None => (Raise IndexError, g)
    end.

(** [l[i]] for a literal index [i >= 0]. *)
Definition getitem {A} (l : list A) (i : nat) : M A :=
  match nth_error l i with
  | Some x => ret x
  | None => raise IndexError
  end.

(** [[c for _ in range(n)]] *)
Fixpoint comprehension {A} (n : nat) (c : M A) : M (list A) :=
  match n with
  | O => ret []
  | S n' => x <- c ;; xs <- comprehension n' c ;; ret (x :: xs)
  end.

(** ** [GachaGame] *)

(** The dictionary of a new player, created at instant [now]. *)
Definition new_player (now : Z) : PlayerData :=
  mkPlayerData 0 0 10 now 0 0.

(** [load_data]: runs inside [__init__], before [self.player_data]
    exists, so it is a function of the world alone.  [json.load] hands the
    stored dictionary over as it is. *)
Definition load_data (w : World) : PlayerData * World :=
  match disk w with
  | Some stored => (stored, w)
  | None => (new_player (clock w (ticks w)), tick w)
  end.

(** [__init__] *)
Definition init (w : World) : GachaGame :=
  let '(d, w') := load_data w in mkGame d w'.

(** [save_data] *)
Definition save_data : M unit :=
  fun g => (Ok tt, mkGame (player_data g) (dump (player_data g) (world g))).

(** [check_reset_cooldown] *)
Definition check_reset_cooldown : M bool :=
  d <- get_data ;;
  let last_reset := last_reset_time d in
  now <- datetime_now ;;
  if now >=? last_reset + timedelta_minutes 15 then
    update (with_attempts_left 10) ;;
    update (with_last_reset_time now) ;;
    save_data ;;
    ret true
  else ret false.

(** [get_time_until_reset].  Python returns the integer [0] or the float
    [(next_reset - now).total_seconds()], the double nearest to the
    duration in seconds; the model returns the duration itself, as its exact
    number of microseconds, and leaves the rounding of the float out.  The
    two have the same sign and are zero together; what is read off the
    value otherwise is stated only for durations of at most 15 minutes,
    where the rounding cannot be seen in the minutes and seconds. *)
Definition get_time_until_reset : M Z :=
  d <- get_data ;;
  let last_reset := last_reset_time d in
  let next_reset := last_reset + timedelta_minutes 15 in
  now <- datetime_now ;;
  if now >=? next_reset then ret 0
  else
    let remaining := next_reset - now in
    ret remaining.

(** [int(time_left // 60)] and [int(time_left % 60)] of a duration given in
    microseconds, as they come out for a duration of at most 15 minutes. *)
Definition minutes_of (time_left : Z) : Z := time_left / (60 * 1000000).
Definition seconds_of (time_left : Z) : Z :=
  (time_left mod (60 * 1000000)) / 1000000.

Definition symbols : list string := ["🎰"; "💎"; "🎁"; "⭐"; "🍀"; "🎯"].

(** [a[i] == b[j] == c[k]]: a chained comparison; the third operand is
    evaluated only when the first comparison holds. *)
Definition chained_eq (a : list string) (i : nat) (b : list string) (j : nat)
           (c : list string) (k : nat) : M bool :=
  x <- getitem a i ;;
  y <- getitem b j ;;
  if String.eqb x y then
    z <- getitem c k ;; ret (String.eqb y z)
  else ret false.

(** [spin_gacha] *)
Definition spin_gacha : M (bool * list string * list string * list string) :=
  row1 <- comprehension 3 (random_choice symbols) ;;
  row2 <- comprehension 3 (random_choice symbols) ;;
  row3 <- comprehension 3 (random_choice symbols) ;;
  let is_win := false in
  c <- chained_eq row1 1 row2 1 row3 1 ;;
  let is_win := if c then true else is_win in
  c <- chained_eq row1 0 row1 1 row1 2 ;;
  let is_win := if c then true else is_win in
  c <- chained_eq row2 0 row2 1 row2 2 ;;
  let is_win := if c then true else is_win in
  c <- chained_eq row3 0 row3 1 row3 2 ;;
  let is_win := if c then true else is_win in
  ret (is_win, row1, row2, row3).

Notation "' pat <- c ;; k" :=
  (bind c (fun x => match x with pat => k end))
  (at level 61, pat pattern, c at next level, right associativity).

(** The texts of the [message] entries, kept by their parameters. *)
Inductive Message : Type :=
| MsgNoAttempts (minutes seconds : Z)
| MsgWin (reward : Z)
| MsgLose
| MsgBought (quantity tokens_gained : Z)
| MsgReset.

(** The dictionary [gacha_spin] returns; a key that is absent is [None]. *)
Record SpinResult : Type := mkSpinResult {
  sr_row1 : option string;
  sr_row2 : option string;
  sr_row3 : option string;
  sr_success : option bool;
  sr_message : option Message;
  sr_balance : option Z;
  sr_attempts_left : option Z;
  sr_next_reset : option (Z * Z)
}.

Definition with_outcome (s : bool) (m : Message) (r : SpinResult) : SpinResult :=
  mkSpinResult (sr_row1 r) (sr_row2 r) (sr_row3 r) (Some s) (Some m)
               (sr_balance r) (sr_attempts_left r) (sr_next_reset r).
Definition with_figures (b a : Z) (r : SpinResult) : SpinResult :=
  mkSpinResult (sr_row1 r) (sr_row2 r) (sr_row3 r) (sr_success r)
               (sr_message r) (Some b) (Some a) (sr_next_reset r).
Definition with_next_reset (t : Z * Z) (r : SpinResult) : SpinResult :=
  mkSpinResult (sr_row1 r) (sr_row2 r) (sr_row3 r) (sr_success r)
               (sr_message r) (sr_balance r) (sr_attempts_left r) (Some t).

(** [" ".join(row)] *)
Definition join (row : list string) : string := String.concat " " row.

(** [gacha_spin] *)
Definition gacha_spin : M SpinResult :=
  check_reset_cooldown ;;
  d <- get_data ;;
  if attempts_left d <=? 0 then
    time_left <- get_time_until_reset ;;
    let minutes := minutes_of time_left in
    let seconds := seconds_of time_left in
    ret (mkSpinResult None None None (Some false)
                      (Some (MsgNoAttempts minutes seconds)) None (Some 0) None)
  else
    '(is_win, row1, row2, row3) <- spin_gacha ;;
    update (fun d => with_attempts_left (attempts_left d - 1) d) ;;
    let result :=
      mkSpinResult (Some (join row1)) (Some (join row2)) (Some (join row3))
                   None None None None None in
    result <-
      (if is_win : bool then
         let reward := 10000 in
         update (fun d => with_balance (balance d + reward) d) ;;
         update (fun d => with_total_wins (total_wins d + 1) d) ;;
         ret (with_outcome true (MsgWin reward) result)
       else
         update (fun d => with_total_losses (total_losses d + 1) d) ;;
         ret (with_outcome false MsgLose result)) ;;
    d <- get_data ;;
    let result := with_figures (balance d) (attempts_left d) result in
    result <-
      (if attempts_left d =? 0 then
         time_left <- get_time_until_reset ;;
         let minutes := minutes_of time_left in
         let seconds := seconds_of time_left in
         ret (with_next_reset (minutes, seconds) result)
       else ret result) ;;
    save_data ;;
    ret result.

(** The dictionary [buy_gacha_pack] returns. *)
Record BuyResult : Type := mkBuyResult {
  br_success : bool;
  br_message : Message;
  br_tokens : Z;
  br_balance : Z
}.

(** [buy_gacha_pack] *)
Definition buy_gacha_pack (quantity : Z) : M BuyResult :=
  let tokens_gained := 5 * quantity in
  update (fun d => with_tokens (tokens d + tokens_gained) d) ;;
  save_data ;;
  d <- get_data ;;
  ret (mkBuyResult true (MsgBought quantity tokens_gained)
                   (tokens d) (balance d)).

(** The [next_reset] entry of the status: a timer, or the text "Penuh". *)
Inductive NextReset : Type :=
| Timer (minutes seconds : Z)
| Penuh.

Record Status : Type := mkStatus {
  st_balance : Z;
  st_tokens : Z;
  st_attempts_left : Z;
  st_total_wins : Z;
  st_total_losses : Z;
  st_next_reset : NextReset
}.

(** [get_player_status] *)
Definition get_player_status : M Status :=
  check_reset_cooldown ;;
  time_left <- get_time_until_reset ;;
  let minutes := minutes_of time_left in
  let seconds := seconds_of time_left in
  d <- get_data ;;
  ret (mkStatus (balance d) (tokens d) (attempts_left d) (total_wins d)
                (total_losses d)
                (if attempts_left d <? 10 then Timer minutes seconds
                 else Penuh)).

(** [reset_game] *)
Definition reset_game : M Message :=
  now <- datetime_now ;;
  set_data (new_player now) ;;
  save_data ;;
  ret MsgReset.

(** ** The menu entry "2" of [main]

    [entered] is the outcome of [int(input(...))]: [None] when it raised
    [ValueError]. *)
Inductive Printed : Type :=
| PrintedMinimumOnePack
| PrintedInvalidInput
| PrintedBought (r : BuyResult).

Definition main_choice_2 (entered : option Z) : M Printed :=
  match entered with
  | None => ret PrintedInvalidInput
  | Some qty =>
      if qty <? 1 then ret PrintedMinimumOnePack
      else
        result <- buy_gacha_pack qty ;;
        ret (PrintedBought result)
  end.

(** The four actions of the core, and their effect on the game. *)
Inductive action : Type :=
| Spin
| Purchase (quantity : Z)
| ReadStatus
| Reset.

Definition perform (a : action) (g : GachaGame) : GachaGame :=
  match a with
  | Spin => snd (gacha_spin g)
  | Purchase q => snd (buy_gacha_pack q g)
  | ReadStatus => snd (get_player_status g)
  | Reset => snd (reset_game g)
  end.

(** ** Notions used by the statements *)

(** The game after a cooldown reset observed at instant [now]. *)
Definition reset_at (now : Z) (g : GachaGame) : GachaGame :=
  let d := with_last_reset_time now (with_attempts_left 10 (player_data g)) in
  mkGame d (dump d (tick (world g))).

(** The game after one reading of the clock and nothing else. *)
Definition ticked (g : GachaGame) : GachaGame :=
  mkGame (player_data g) (tick (world g)).

(** The next reading of the clock. *)
Definition next_now (g : GachaGame) : Z := clock (world g) (ticks (world g)).

(** The symbol that the [k]-th draw of the generator selects. *)
Definition symbol_at (w : World) (k : nat) : string :=
  nth (rng w k mod 6)%nat symbols "".

Definition row_at (w : World) (k : nat) : list string :=
  [symbol_at w k; symbol_at w (1 + k); symbol_at w (2 + k)].

Definition drawn (n : nat) (g : GachaGame) : GachaGame :=
  mkGame (player_data g) (Nat.iter n draw (world g)).

(** Three symbols that are all the same, as [==] decides it. *)
Definition alike3 (x y z : string) : bool := String.eqb x y && String.eqb y z.

(** The verdict of [spin_gacha] on three rows of three symbols. *)
Definition verdict (row1 row2 row3 : list string) : bool :=
  match row1, row2, row3 with
  | [a1; b1; c1], [a2; b2; c2], [a3; b3; c3] =>
      alike3 b1 b2 b3 || alike3 a1 b1 c1 || alike3 a2 b2 c2
      || alike3 a3 b3 c3
  | _, _, _ => false
  end.

(** The win conditions, in the words of the specification. *)
Definition three_identical (x y z : string) : Prop := x = y /\ y = z.

(** Column [i] is identical across the three rows. *)
Definition column_identical (i : nat) (row1 row2 row3 : list string) : Prop :=
  exists x y z,
    nth_error row1 i = Some x /\ nth_error row2 i = Some y /\
    nth_error row3 i = Some z /\ three_identical x y z.

(** A row consists of three identical symbols. *)
Definition row_identical (row : list string) : Prop :=
  exists x y z, row = [x; y; z] /\ three_identical x y z.

Definition three_in_a_row (row1 row2 row3 : list string) : Prop :=
  column_identical 1 row1 row2 row3 \/ row_identical row1 \/
  row_identical row2 \/ row_identical row3.

(** The game as [check_reset_cooldown] leaves it. *)
Definition after_cooldown (g : GachaGame) : GachaGame :=
  snd (check_reset_cooldown g).

(** The time until the next reset that the next reading of the clock
    gives, in microseconds. *)
Definition time_left (g : GachaGame) : Z :=
  Z.max 0 (last_reset_time (player_data g) + timedelta_minutes 15 - next_now g).

(** The flag of the spin that the next nine draws of the generator give. *)
Definition next_is_win (g : GachaGame) : bool :=
  let w := world g in
  let k := draws w in
  verdict (row_at w k) (row_at w (3 + k)) (row_at w (6 + k)).

(** The dictionary after a spin that was played with outcome [is_win]. *)
Definition played (is_win : bool) (d : PlayerData) : PlayerData :=
  mkPlayerData (if is_win then balance d + 10000 else balance d)
               (tokens d)
               (attempts_left d - 1)
               (last_reset_time d)
               (if is_win then total_wins d + 1 else total_wins d)
               (if is_win then total_losses d else total_losses d + 1).

(** A world with no save file, a clock stopped at instant [0] and a
    generator that always draws index [0]; and the game created there. *)
Definition quiet_world : World :=
  mkWorld None [] (fun _ => 0) 0 (fun _ => 0%nat) 0.

Definition fresh_game : GachaGame := init quiet_world.

(** The same game with another dictionary. *)
Definition holding (d : PlayerData) (g : GachaGame) : GachaGame :=
  mkGame d (world g).

Definition idle_player : PlayerData := mkPlayerData 0 0 0 0 0 0.

(** A game whose clock reads [t] at every call. *)
Definition game_at (t : Z) (d : PlayerData) : GachaGame :=
  mkGame d (mkWorld None [] (fun _ => t) 0 (fun _ => 0%nat) 0).

(** The third scenario: no attempts left, and a reset two minutes ago. *)
Definition two_minutes_in : GachaGame := game_at 120000000 idle_player.

(** The documented range of [attempts_left]. *)
Definition attempts_in_range (g : GachaGame) : Prop :=
  0 <= attempts_left (player_data g) <= 10.

(** A session: actions performed one after the other. *)
Definition session (script : list action) (g : GachaGame) : GachaGame :=
  fold_left (fun g a => perform a g) script g.

(** ** Notions used by the further statements *)


(** The balance is what the wins have paid, and the counters are counts. *)
Definition ledger_consistent (d : PlayerData) : Prop :=
  balance d = 10000 * total_wins d /\ 0 <= total_wins d /\ 0 <= total_losses d.

(** The dictionary that a played spin returns, for the dictionary [d] it
    leaves behind. *)
Definition played_result (is_win : bool) (row1 row2 row3 : list string)
           (d : PlayerData) (timer : option (Z * Z)) : SpinResult :=
  mkSpinResult (Some (join row1)) (Some (join row2)) (Some (join row3))
               (Some is_win) (Some (if is_win then MsgWin 10000 else MsgLose))
               (Some (balance d)) (Some (attempts_left d)) timer.

(** A player with one attempt left, in the quiet world. *)
Definition last_attempt : GachaGame :=
  holding (mkPlayerData 0 0 1 0 0 0) fresh_game.

(** The second scenario: no attempts left, and a reset twenty minutes
    ago. *)
Definition twenty_minutes_in : GachaGame := game_at 1200000000 idle_player.

(** The cooldown is still running at every reading of the clock. *)
Definition within_window (g : GachaGame) : Prop :=
  forall k, clock (world g) k
            < last_reset_time (player_data g) + timedelta_minutes 15.

(** The spins counted and the attempts that remain. *)
Definition spins_and_attempts (d : PlayerData) : Z :=
  total_wins d + total_losses d + attempts_left d.


(** ** The shell: [format_currency], [display_menu] and [main] *)

(** The text [format_currency] returns, kept by the branch that builds it:
    [Millions a] is [a/1_000_000] with one decimal and the letter M,
    [Thousands a] is [a/1_000] with one decimal and the letter K, and
    [Units a] is [str(a)]. *)
Inductive Currency : Type :=
| Millions (amount : Z)
| Thousands (amount : Z)
| Units (amount : Z).

(** What [main] writes to the terminal, one constructor for each [print]
    of the source (and for the prompt of each [input]), with the values the
    text is built from.  [LMenu] is the whole of [display_menu]. *)
Inductive Line : Type :=
| LWelcome
| LMenu
| LPromptChoice
| LSpinning
| LRule
| LRow (row : string)
| LMessage (m : Message)
| LSaldo (c : Currency)
| LAttemptsLeft (attempts : Z)
| LNextReset (timer : Z * Z)
| LBuyHeading
| LPackInfo
| LPromptQuantity
| LMinimumOnePack
| LInvalidInput
| LTokenTotal (tokens : Z)
| LStatusHeading
| LToken (tokens : Z)
| LAttempts (attempts : Z)
| LTotalWins (wins : Z)
| LTotalLosses (losses : Z)
| LWinRate (wins total : Z)
| LResetIn (timer : NextReset)
| LPromptConfirm
| LResetDone
| LResetCancelled
| LBye
| LInvalidChoice.

(** One line typed by the user, by the three readings [main] makes of a
    line: [input().strip()], [int(input())] ([None]: [ValueError]) and
    [input().strip().lower()]. *)
Record answer : Type := mkAnswer {
  stripped : string;
  as_int : option Z;
  lowered : string
}.

(** The program at the terminal: the game and what has been printed. *)
Record Console : Type := mkConsole {
  game : GachaGame;
  stdout : list Line
}.

(** What ends [main] early: a key missing from a dictionary, the end of
    the input, a division that fails, or an exception of the game. *)
Inductive crash : Type :=
| KeyError (key : string)
| EOFError
| OverflowError
| ZeroDivisionError
| Uncaught (e : exn).

Inductive ran (A : Type) : Type :=
| Fine (a : A)
| Crashed (c : crash).
Arguments Fine {A} a.
Arguments Crashed {A} c.

Definition Sh (A : Type) : Type := Console -> ran A * Console.

Definition sh_ret {A} (a : A) : Sh A := fun c => (Fine a, c).

Definition sh_bind {A B} (m : Sh A) (k : A -> Sh B) : Sh B :=
  fun c => match m c with
           | (Fine a, c') => k a c'
           | (Crashed e, c') => (Crashed e, c')
           end.

Definition sh_crash {A} (e : crash) : Sh A := fun c => (Crashed e, c).

Notation "x <~ m ;; k" := (sh_bind m (fun x => k))
  (at level 61, m at next level, right associativity).
Notation "m ;;; k" := (sh_bind m (fun _ => k))
  (at level 61, right associativity).

(** [print(...)] *)
Definition print (l : Line) : Sh unit :=
  fun c => (Fine tt, mkConsole (game c) (stdout c ++ [l])).

(** A call of a method of [game]. *)
Definition call {A} (m : M A) : Sh A :=
  fun c => match m (game c) with
           | (Ok a, g') => (Fine a, mkConsole g' (stdout c))
           | (Raise e, g') => (Crashed (Uncaught e), mkConsole g' (stdout c))
           end.

(** [result[key]] *)
Definition item {A} (key : string) (entry : option A) : Sh A :=
  match entry with
  | Some v => sh_ret v
  | None => sh_crash (KeyError key)
  end.

(** The least magnitude that no double holds: a quotient at or above it
    rounds to [2^1024]. *)
Definition float_limit : Z := 2 ^ 1024 - 2 ^ 970.

(** [a / b] on two integers: the double nearest to the quotient,
    [ZeroDivisionError] when [b] is 0, and [OverflowError] when the quotient
    is too large for a double.  The double is not computed; the pair
    [(a, b)] stands for it. *)
Definition true_div (a b : Z) : Sh (Z * Z) :=
  if b =? 0 then sh_crash ZeroDivisionError
  else if float_limit * Z.abs b <=? Z.abs a then sh_crash OverflowError
  else sh_ret (a, b).

(** [format_currency]; [str] of an integer is taken never to fail. *)
Definition format_currency (amount : Z) : Sh Currency :=
  if amount >=? 1000000 then
    true_div amount 1000000 ;;; sh_ret (Millions amount)
  else if amount >=? 1000 then
    true_div amount 1000 ;;; sh_ret (Thousands amount)
  else sh_ret (Units amount).

(** [display_menu] *)
Definition display_menu : Sh unit := print LMenu.

(** The menu entry "1" of [main]. *)
Definition menu_1 : Sh unit :=
  print LSpinning ;;;
  result <~ call gacha_spin ;;
  print LRule ;;;
  row1 <~ item "row1" (sr_row1 result) ;;
  print (LRow row1) ;;;
  row2 <~ item "row2" (sr_row2 result) ;;
  print (LRow row2) ;;;
  row3 <~ item "row3" (sr_row3 result) ;;
  print (LRow row3) ;;;
  print LRule ;;;
  message <~ item "message" (sr_message result) ;;
  print (LMessage message) ;;;
  balance <~ item "balance" (sr_balance result) ;;
  saldo <~ format_currency balance ;;
  print (LSaldo saldo) ;;;
  attempts <~ item "attempts_left" (sr_attempts_left result) ;;
  print (LAttemptsLeft attempts) ;;;
  match sr_next_reset result with
  | Some timer => print (LNextReset timer)
  | None => sh_ret tt
  end.

(** The menu entry "2" of [main], from the answer to its prompt on. *)
Definition menu_2 (entered : option Z) : Sh unit :=
  printed <~ call (main_choice_2 entered) ;;
  match printed with
  | PrintedMinimumOnePack => print LMinimumOnePack
  | PrintedInvalidInput => print LInvalidInput
  | PrintedBought result =>
      print (LMessage (br_message result)) ;;;
      saldo <~ format_currency (br_balance result) ;;
      print (LSaldo saldo) ;;;
      print (LTokenTotal (br_tokens result))
  end.

(** The menu entry "3" of [main]. *)
Definition menu_3 : Sh unit :=
  print LStatusHeading ;;;
  status <~ call get_player_status ;;
  saldo <~ format_currency (st_balance status) ;;
  print (LSaldo saldo) ;;;
  print (LToken (st_tokens status)) ;;;
  print (LAttempts (st_attempts_left status)) ;;;
  print (LTotalWins (st_total_wins status)) ;;;
  print (LTotalLosses (st_total_losses status)) ;;;
  (if st_total_wins status + st_total_losses status >? 0 then
     true_div (st_total_wins status)
              (st_total_wins status + st_total_losses status) ;;;
     print (LWinRate (st_total_wins status)
                     (st_total_wins status + st_total_losses status))
   else sh_ret tt) ;;;
  print (LResetIn (st_next_reset status)).

(** The menu entry "4" of [main], from the answer to its prompt on. *)
Definition menu_4 (confirm : string) : Sh unit :=
  if String.eqb confirm "yes" then
    call reset_game ;;;
    print LResetDone
  else print LResetCancelled.

(** The loop of [main], over the lines the user types; [EOFError] when
    they run out. *)
Fixpoint main_loop (stdin : list answer) : Sh unit :=
  display_menu ;;;
  print LPromptChoice ;;;
  match stdin with
  | [] => sh_crash EOFError
  | a :: rest =>
      let choice := stripped a in
      if String.eqb choice "1" then
        menu_1 ;;; main_loop rest
      else if String.eqb choice "2" then
        print LBuyHeading ;;;
        print LPackInfo ;;;
        print LPromptQuantity ;;;
        match rest with
        | [] => sh_crash EOFError
        | q :: rest' => menu_2 (as_int q) ;;; main_loop rest'
        end
      else if String.eqb choice "3" then
        menu_3 ;;; main_loop rest
      else if String.eqb choice "4" then
        print LPromptConfirm ;;;
        match rest with
        | [] => sh_crash EOFError
        | c :: rest' => menu_4 (lowered c) ;;; main_loop rest'
        end
      else if String.eqb choice "5" then
        print LBye
      else
        print LInvalidChoice ;;; main_loop rest
  end.

(** [main], in a world and with the lines the user will type.  The save
    file of a world is absent or holds a dictionary of the six entries with
    integer values and an ISO time; a file that holds anything else has no
    counterpart here. *)
Definition main (w : World) (stdin : list answer) : ran unit * Console :=
  (print LWelcome ;;; main_loop stdin) (mkConsole (init w) []).

(** What the program keeps true of a player who started from nothing. *)
Definition sound_player (d : PlayerData) : Prop :=
  0 <= attempts_left d <= 10 /\
  ledger_consistent d /\
  0 <= tokens d /\ (tokens d mod 5 = 0).

(** The user types [choice] at the menu. *)
Definition types (choice : string) : answer :=
  mkAnswer choice None choice.

(** The user types the number [n]. *)
Definition types_number (text : string) (n : Z) : answer :=
  mkAnswer text (Some n) text.

(** The actions that the menu can start: a purchase has a quantity of at
    least 1. *)
Definition from_menu (a : action) : Prop :=
  match a with
  | Purchase q => 1 <= q
  | _ => True
  end.

(** A console where the second scenario is about to be played, and one
    where the third is. *)
Definition console_of (g : GachaGame) : Console := mkConsole g [].

(** The text of an amount, by the branch of [format_currency] it takes. *)
Definition currency_text (amount : Z) : Currency :=
  if amount >=? 1000000 then Millions amount
  else if amount >=? 1000 then Thousands amount
  else Units amount.

(** The lines that the menu entry "1" prints for the dictionary of a
    played spin: one for each entry, in the order of the source. *)
Definition spin_lines (result : SpinResult) (saldo : Currency) : list Line :=
  match sr_row1 result, sr_row2 result, sr_row3 result,
        sr_message result, sr_attempts_left result with
  | Some row1, Some row2, Some row3, Some message, Some attempts =>
      [LSpinning; LRule; LRow row1; LRow row2; LRow row3; LRule;
       LMessage message; LSaldo saldo; LAttemptsLeft attempts]
      ++ match sr_next_reset result with
         | Some timer => [LNextReset timer]
         | None => []
         end
  | _, _, _, _, _ => []
  end.

(** The ways [main] ends: the user chose "5", a refused spin had no
    [row1], the input ran out, or a figure was too large for a double. *)
Definition ending (r : ran unit) : Prop :=
  r = Fine tt \/ r = Crashed (KeyError "row1") \/ r = Crashed EOFError \/
  r = Crashed OverflowError.

(** * Properties *)

(** ** Running the monad *)

Lemma bind_ok {A B} (c : M A) (k : A -> M B) g a g' :
  c g = (Ok a, g') -> bind c k g = k a g'.
Proof. intros E. unfold bind. rewrite E. reflexivity. Qed.

Lemma bind_raise {A B} (c : M A) (k : A -> M B) g e g' :
  c g = (Raise e, g') -> bind c k g = (Raise e, g').
Proof. intros E. unfold bind. rewrite E. reflexivity. Qed.

Lemma check_reset_cooldown_run g :
  check_reset_cooldown g =
  if next_now g >=? last_reset_time (player_data g) + timedelta_minutes 15
  then (Ok true, reset_at (next_now g) g)
  else (Ok false, ticked g).
Proof.
  unfold check_reset_cooldown, bind, get_data, datetime_now, next_now. cbn.
  destruct (_ >=? _); reflexivity.
Qed.

Lemma get_time_until_reset_run g :
  get_time_until_reset g =
  (Ok (Z.max 0 (last_reset_time (player_data g) + timedelta_minutes 15
                - next_now g)), ticked g).
Proof.
  unfold get_time_until_reset, bind, get_data, datetime_now, next_now. cbn.
  destruct (Z.geb_spec (clock (world g) (ticks (world g)))
              (last_reset_time (player_data g) + timedelta_minutes 15));
    unfold ret, ticked; f_equal; f_equal; lia.
Qed.

(** ** The spin engine *)

Lemma random_choice_symbols_run g :
  random_choice symbols g =
  (Ok (symbol_at (world g) (draws (world g))), drawn 1 g).
Proof.
  unfold random_choice, symbol_at.
  change (List.length symbols) with 6%nat.
  rewrite (nth_error_nth' symbols "").
  - reflexivity.
  - change (List.length symbols) with 6%nat.
    apply Nat.mod_upper_bound. discriminate.
Qed.

Lemma row_run g :
  comprehension 3 (random_choice symbols) g =
  (Ok (row_at (world g) (draws (world g))), drawn 3 g).
Proof.
  unfold comprehension, bind.
  do 3 (rewrite random_choice_symbols_run; cbv beta iota).
  reflexivity.
Qed.

Lemma chained_eq_run a i b j c k x y z g :
  nth_error a i = Some x -> nth_error b j = Some y -> nth_error c k = Some z ->
  chained_eq a i b j c k g = (Ok (alike3 x y z), g).
Proof.
  intros Ha Hb Hc. unfold chained_eq, getitem, alike3, bind.
  rewrite Ha, Hb, Hc. cbn.
  destruct (String.eqb x y); reflexivity.
Qed.

Lemma spin_gacha_run g :
  let w := world g in
  let k := draws w in
  spin_gacha g =
  (Ok (verdict (row_at w k) (row_at w (3 + k)) (row_at w (6 + k)),
       row_at w k, row_at w (3 + k), row_at w (6 + k)),
   drawn 9 g).
Proof.
  intros w k. unfold spin_gacha.
  erewrite bind_ok by apply row_run.
  erewrite bind_ok by apply row_run.
  erewrite bind_ok by apply row_run.
  unfold row_at at 1 2 3 4 5 6 7 8 9 10 11 12.
  repeat (erewrite bind_ok by (apply chained_eq_run; reflexivity)).
  unfold ret, verdict, row_at, drawn, symbol_at. subst w k.
  cbn [world draws Nat.iter draw nat_rect player_data rng Nat.add].
  repeat match goal with |- context [alike3 ?a ?b ?c] =>
    let v := fresh "v" in generalize (alike3 a b c); intro v end.
  destruct v, v0, v1, v2; reflexivity.
Qed.

Lemma alike3_true x y z : alike3 x y z = true <-> three_identical x y z.
Proof.
  unfold alike3, three_identical.
  rewrite andb_true_iff, !String.eqb_eq. reflexivity.
Qed.

Lemma verdict_true a1 b1 c1 a2 b2 c2 a3 b3 c3 :
  verdict [a1; b1; c1] [a2; b2; c2] [a3; b3; c3] = true <->
  three_in_a_row [a1; b1; c1] [a2; b2; c2] [a3; b3; c3].
Proof.
  unfold verdict, three_in_a_row, column_identical, row_identical.
  rewrite !orb_true_iff, !alike3_true. cbn [nth_error].
  split.
  - intros [[[H | H] | H] | H].
    + left. exists b1, b2, b3. auto.
    + right; left. exists a1, b1, c1. auto.
    + right; right; left. exists a2, b2, c2. auto.
    + right; right; right. exists a3, b3, c3. auto.
  - intros [(x & y & z & E1 & E2 & E3 & H) | [(x & y & z & E & H)
      | [(x & y & z & E & H) | (x & y & z & E & H)]]].
    + injection E1 as <-. injection E2 as <-. injection E3 as <-. auto.
    + injection E as <- <- <-. auto.
    + injection E as <- <- <-. auto.
    + injection E as <- <- <-. auto.
Qed.

(** Every symbol of a row comes from the alphabet. *)
Lemma symbol_at_in w k : In (symbol_at w k) symbols.
Proof.
  unfold symbol_at. apply nth_In.
  change (List.length symbols) with 6%nat.
  apply Nat.mod_upper_bound. discriminate.
Qed.

(** C1. [spin_gacha] always returns: a grid of three rows of three symbols
    of the alphabet, and a flag [is_win] that is true if and only if one of
    the four three-in-a-row conditions holds on that grid (the middle column
    identical across the rows, or row 0, row 1 or row 2 made of three
    identical symbols). *)
Theorem spin_gacha_is_win_iff (g : GachaGame) :
  exists is_win row1 row2 row3 g',
    spin_gacha g = (Ok (is_win, row1, row2, row3), g') /\
    List.length row1 = 3%nat /\ List.length row2 = 3%nat /\
    List.length row3 = 3%nat /\
    (forall s, In s (row1 ++ row2 ++ row3) -> In s symbols) /\
    (is_win = true <-> three_in_a_row row1 row2 row3).
Proof.
  eexists _, _, _, _, _. split; [apply spin_gacha_run |].
  repeat split; try apply verdict_true.
  intros s Hs. cbn in Hs.
  repeat (destruct Hs as [<- | Hs]; [apply symbol_at_in |]).
  destruct Hs.
Qed.

(** ** One spin *)

Lemma after_cooldown_cases g :
  (next_now g >= last_reset_time (player_data g) + timedelta_minutes 15 /\
   check_reset_cooldown g = (Ok true, reset_at (next_now g) g) /\
   after_cooldown g = reset_at (next_now g) g) \/
  (next_now g < last_reset_time (player_data g) + timedelta_minutes 15 /\
   check_reset_cooldown g = (Ok false, ticked g) /\
   after_cooldown g = ticked g).
Proof.
  unfold after_cooldown. rewrite check_reset_cooldown_run.
  destruct (Z.geb_spec (next_now g)
              (last_reset_time (player_data g) + timedelta_minutes 15)).
  - left. repeat split. lia.
  - right. repeat split. lia.
Qed.

Lemma check_reset_cooldown_ok g :
  exists b, check_reset_cooldown g = (Ok b, after_cooldown g).
Proof.
  destruct (after_cooldown_cases g) as [(_ & E & ->) | (_ & E & ->)];
    eexists; exact E.
Qed.

(** An exhausted player: the spin is refused. *)
Lemma gacha_spin_refused g :
  attempts_left (player_data (after_cooldown g)) <= 0 ->
  gacha_spin g =
  (Ok (mkSpinResult None None None (Some false)
         (Some (MsgNoAttempts (minutes_of (time_left (after_cooldown g)))
                              (seconds_of (time_left (after_cooldown g)))))
         None (Some 0) None),
   ticked (after_cooldown g)).
Proof.
  intros H. unfold gacha_spin.
  destruct (check_reset_cooldown_ok g) as [b Eb].
  erewrite bind_ok by exact Eb.
  erewrite bind_ok by reflexivity.
  destruct (Z.leb_spec (attempts_left (player_data (after_cooldown g))) 0);
    [| lia].
  erewrite bind_ok by apply get_time_until_reset_run.
  reflexivity.
Qed.

(** A player with attempts left: the spin is played and saved. *)
Lemma gacha_spin_played g :
  0 < attempts_left (player_data (after_cooldown g)) ->
  let g1 := after_cooldown g in
  let is_win := next_is_win g1 in
  let d := played is_win (player_data g1) in
  let w := Nat.iter 9 draw (world g1) in
  exists result,
    gacha_spin g =
    (Ok result,
     mkGame d (dump d (if attempts_left d =? 0 then tick w else w))) /\
    sr_success result = Some is_win /\
    sr_balance result = Some (balance d) /\
    sr_attempts_left result = Some (attempts_left d).
Proof.
  intros H g1 is_win d w. unfold gacha_spin.
  destruct (check_reset_cooldown_ok g) as [b Eb].
  erewrite bind_ok by exact Eb.
  erewrite bind_ok by reflexivity.
  fold g1. destruct (Z.leb_spec (attempts_left (player_data g1)) 0);
    [unfold g1 in *; lia |].
  erewrite bind_ok by apply spin_gacha_run.
  change (verdict _ _ _) with is_win.
  unfold bind, update, get_data, ret, save_data.
  cbn [player_data world drawn]. fold w.
  subst d. destruct is_win;
    cbn [player_data world with_attempts_left
      with_balance with_total_wins with_total_losses attempts_left balance
      tokens last_reset_time total_wins total_losses played];
    destruct (attempts_left (player_data g1) - 1 =? 0);
    try rewrite get_time_until_reset_run;
    cbn [player_data world ticked];
    eexists; (split; [reflexivity |]); repeat split.
Qed.

(** ** Purchase, status and reset *)

Lemma buy_gacha_pack_run quantity g :
  let d := with_tokens (tokens (player_data g) + 5 * quantity) (player_data g) in
  buy_gacha_pack quantity g =
  (Ok (mkBuyResult true (MsgBought quantity (5 * quantity))
                   (tokens d) (balance d)),
   mkGame d (dump d (world g))).
Proof. reflexivity. Qed.

Lemma get_player_status_run g :
  exists status,
    get_player_status g = (Ok status, ticked (after_cooldown g)) /\
    st_attempts_left status = attempts_left (player_data (after_cooldown g)).
Proof.
  unfold get_player_status.
  destruct (check_reset_cooldown_ok g) as [b Eb].
  erewrite bind_ok by exact Eb.
  erewrite bind_ok by apply get_time_until_reset_run.
  eexists. split; reflexivity.
Qed.


(** What the cooldown check can do to the dictionary. *)
Lemma after_cooldown_data g :
  player_data (after_cooldown g) = player_data g \/
  player_data (after_cooldown g) =
  with_last_reset_time (next_now g) (with_attempts_left 10 (player_data g)).
Proof.
  destruct (after_cooldown_cases g) as [(_ & _ & ->) | (_ & _ & ->)];
    [right | left]; reflexivity.
Qed.

Lemma perform_spin_data g :
  let g1 := after_cooldown g in
  player_data (perform Spin g) =
  if attempts_left (player_data g1) <=? 0 then player_data g1
  else played (next_is_win g1) (player_data g1).
Proof.
  intros g1. cbn [perform].
  destruct (Z.leb_spec (attempts_left (player_data g1)) 0) as [H | H].
  - rewrite gacha_spin_refused by exact H. reflexivity.
  - destruct (gacha_spin_played g H) as (r & E & _). rewrite E. reflexivity.
Qed.

Lemma perform_status_data g :
  player_data (perform ReadStatus g) = player_data (after_cooldown g).
Proof.
  cbn [perform]. destruct (get_player_status_run g) as (s & E & _).
  rewrite E. reflexivity.
Qed.

(** ** The cooldown *)

(** C5. [check_reset_cooldown], with [now] the reading of the clock it
    takes: when [now >= last_reset_time + 15 minutes] it sets
    [attempts_left] to 10 and [last_reset_time] to [now], leaves the other
    entries alone, saves that dictionary and returns [True]; otherwise it
    returns [False] and neither the dictionary nor the file changes. *)
Theorem check_reset_cooldown_exact (g : GachaGame) :
  let d := player_data g in
  let w := world g in
  let now := clock w (ticks w) in
  let d' := mkPlayerData (balance d) (tokens d) 10 now
                         (total_wins d) (total_losses d) in
  (now >= last_reset_time d + timedelta_minutes 15 /\
   check_reset_cooldown g =
   (Ok true,
    mkGame d' (mkWorld (Some d') (d' :: writes w) (clock w) (S (ticks w))
                       (rng w) (draws w)))) \/
  (now < last_reset_time d + timedelta_minutes 15 /\
   check_reset_cooldown g =
   (Ok false,
    mkGame d (mkWorld (disk w) (writes w) (clock w) (S (ticks w))
                      (rng w) (draws w)))).
Proof.
  intros d w now d'.
  destruct (after_cooldown_cases g) as [(H & E & _) | (H & E & _)].
  - left. split; [exact H | exact E].
  - right. split; [exact H | exact E].
Qed.

Lemma timedelta_fifteen_minutes : timedelta_minutes 15 = 900 * 1000000.
Proof. reflexivity. Qed.

Lemma iter_tick_shift n w : Nat.iter n tick (tick w) = tick (Nat.iter n tick w).
Proof. rewrite <- Nat.iter_succ_r. reflexivity. Qed.

(** Polling the cooldown [n] times before the boundary. *)
Lemma poll_before_boundary n : forall g,
  (forall i, (i < n)%nat ->
     clock (world g) (ticks (world g) + i) <
     last_reset_time (player_data g) + timedelta_minutes 15) ->
  comprehension n check_reset_cooldown g =
  (Ok (repeat false n), mkGame (player_data g) (Nat.iter n tick (world g))).
Proof.
  induction n as [| n IH]; intros g H.
  - destruct g. reflexivity.
  - cbn [comprehension].
    destruct (after_cooldown_cases g) as [(Hn & _) | (_ & E & _)].
    + specialize (H 0%nat (Nat.lt_0_succ n)). rewrite Nat.add_0_r in H.
      unfold next_now in Hn. lia.
    + erewrite bind_ok by exact E.
      erewrite bind_ok.
      2:{ apply IH. intros i Hi. cbn [ticked world player_data tick clock ticks].
          specialize (H (S i)). rewrite Nat.add_succ_r in H. apply H. lia. }
      unfold ret. cbn [ticked world player_data repeat].
      now rewrite iter_tick_shift.
Qed.

(** C9. Polls of [check_reset_cooldown] at instants that are all before
    the 15-minute boundary all return [False] and change neither the
    dictionary nor the file, as many as they are.  A call at or after the
    boundary returns [True], sets [attempts_left] to 10 and moves
    [last_reset_time] forward to the instant of the check, with one save;
    a second call at that same instant returns [False] and changes
    nothing. *)
Theorem cooldown_idempotent_monotonic (g : GachaGame) (n : nat) :
  let boundary := last_reset_time (player_data g) + timedelta_minutes 15 in
  ((forall i, (i < n)%nat -> clock (world g) (ticks (world g) + i) < boundary) ->
   exists g',
     comprehension n check_reset_cooldown g = (Ok (repeat false n), g') /\
     player_data g' = player_data g /\
     disk (world g') = disk (world g) /\
     writes (world g') = writes (world g)) /\
  (boundary <= next_now g ->
   exists g1,
     check_reset_cooldown g = (Ok true, g1) /\
     attempts_left (player_data g1) = 10 /\
     last_reset_time (player_data g1) = next_now g /\
     last_reset_time (player_data g) < last_reset_time (player_data g1) /\
     writes (world g1) = player_data g1 :: writes (world g) /\
     (next_now g1 = next_now g ->
      exists g2,
        check_reset_cooldown g1 = (Ok false, g2) /\
        player_data g2 = player_data g1 /\
        disk (world g2) = disk (world g1) /\
        writes (world g2) = writes (world g1))).
Proof.
  intros boundary. split.
  - intros H. eexists. split; [apply poll_before_boundary; exact H |].
    cbn [player_data world]. repeat split.
    + clear H. induction n as [| k IH]; [reflexivity | exact IH].
    + clear H. induction n as [| k IH]; [reflexivity | exact IH].
  - intros H.
    destruct (after_cooldown_cases g) as [(_ & E & _) | (Hn & _)];
      [| subst boundary; lia].
    eexists. split; [exact E |].
    cbn [reset_at player_data world with_last_reset_time with_attempts_left
         attempts_left last_reset_time dump tick writes].
    repeat split.
    + subst boundary. unfold timedelta_minutes in H. lia.
    + intros Same.
      destruct (after_cooldown_cases (reset_at (next_now g) g))
        as [(Hn & _) | (_ & E' & _)].
      * rewrite Same in Hn. cbn in Hn. unfold timedelta_minutes in Hn. lia.
      * eexists. split; [exact E' |]. repeat split.
Qed.

Lemma cooldown_idempotent_monotonic_witness :
  (exists g',
     comprehension 3 check_reset_cooldown (game_at 120000000 idle_player) =
     (Ok [false; false; false], g') /\
     player_data g' = idle_player /\
     disk (world g') = None /\ writes (world g') = []) /\
  (exists g1,
     check_reset_cooldown (game_at 900000000 idle_player) = (Ok true, g1) /\
     attempts_left (player_data g1) = 10 /\
     last_reset_time (player_data g1) = 900000000).
Proof.
  split.
  - destruct (cooldown_idempotent_monotonic (game_at 120000000 idle_player) 3)
      as [H _].
    apply H. intros i _. reflexivity.
  - destruct (cooldown_idempotent_monotonic (game_at 900000000 idle_player) 0)
      as [_ H].
    destruct H as (g1 & E & Ha & Hl & _).
    + discriminate.
    + exists g1. repeat split; assumption.
Defined.

(** ** Loading *)

(** C10. [load_data] neither validates nor clamps: when the save file
    exists, the stored dictionary is returned as it is, whatever its
    values, the clock is not read and nothing is written, and [__init__]
    adopts it; the default dictionary (balance 0, tokens 0, 10 attempts,
    no wins, no losses, [last_reset_time] the current instant) is what
    [load_data] returns when there is no file. *)
Theorem load_data_adopts_stored (w : World) :
  match disk w with
  | Some stored =>
      load_data w = (stored, w) /\ init w = mkGame stored w
  | None =>
      load_data w = (mkPlayerData 0 0 10 (clock w (ticks w)) 0 0, tick w) /\
      init w = mkGame (mkPlayerData 0 0 10 (clock w (ticks w)) 0 0) (tick w)
  end.
Proof.
  unfold init, load_data. destruct (disk w); split; reflexivity.
Qed.

(** A stored dictionary outside the documented ranges is adopted too. *)
Example load_data_out_of_range :
  let stored := mkPlayerData (-7) (-1) 50 0 (-2) (-3) in
  player_data (init (mkWorld (Some stored) [] (fun _ => 0) 0
                             (fun _ => 0%nat) 0)) = stored.
Proof. reflexivity. Qed.

(** ** Purchases *)

(** C8. For a quantity [q >= 1], [buy_gacha_pack q] adds [5 * q] to
    [tokens], leaves every other entry of the dictionary as it was, saves
    the dictionary and reports the new tokens and the unchanged balance. *)
Theorem buy_gacha_pack_adds_tokens (q : Z) (g : GachaGame) :
  q >= 1 ->
  let d := player_data g in
  let d' := mkPlayerData (balance d) (tokens d + 5 * q) (attempts_left d)
                         (last_reset_time d) (total_wins d) (total_losses d) in
  exists result g',
    buy_gacha_pack q g = (Ok result, g') /\
    player_data g' = d' /\
    disk (world g') = Some d' /\
    br_success result = true /\
    br_tokens result = tokens d + 5 * q /\
    br_balance result = balance d.
Proof.
  intros _ d d'. eexists _, _. split; [apply buy_gacha_pack_run |].
  repeat split.
Qed.

Lemma buy_gacha_pack_adds_tokens_witness :
  3 >= 1 /\
  exists result g',
    buy_gacha_pack 3 fresh_game = (Ok result, g') /\
    player_data g' = mkPlayerData 0 15 10 0 0 0 /\
    disk (world g') = Some (mkPlayerData 0 15 10 0 0 0) /\
    br_success result = true /\
    br_tokens result = 15 /\
    br_balance result = 0.
Proof.
  split; [lia |].
  apply (buy_gacha_pack_adds_tokens 3 fresh_game). lia.
Defined.

(** C2, as the specification words it, fails on [buy_gacha_pack]: with
    quantity 0 on a new game it reports success and writes the save file,
    and with quantity -1 it takes five tokens away. *)
Lemma buy_gacha_pack_does_not_validate :
  (exists result g',
     buy_gacha_pack 0 fresh_game = (Ok result, g') /\
     br_success result = true /\
     writes (world fresh_game) = [] /\
     writes (world g') = [player_data fresh_game] /\
     disk (world fresh_game) = None /\
     disk (world g') = Some (player_data fresh_game)) /\
  tokens (player_data fresh_game) = 0 /\
  tokens (player_data (snd (buy_gacha_pack (-1) fresh_game))) = -5.
Proof.
  split; [eexists _, _ |]; repeat split.
Qed.

(** C2, amended.  The check [quantity >= 1] is made by the menu entry of
    [main], before [buy_gacha_pack] is called: for an entered quantity
    below 1 the entry prints the refusal and the game is left as it was, no
    entry of the dictionary changes and nothing is saved. *)
Theorem main_choice_2_rejects (q : Z) (g : GachaGame) :
  q < 1 ->
  main_choice_2 (Some q) g = (Ok PrintedMinimumOnePack, g).
Proof.
  intros H. unfold main_choice_2.
  destruct (Z.ltb_spec q 1); [reflexivity | lia].
Qed.

Lemma main_choice_2_rejects_witness :
  0 < 1 /\
  main_choice_2 (Some 0) fresh_game = (Ok PrintedMinimumOnePack, fresh_game).
Proof.
  split; [lia |]. apply (main_choice_2_rejects 0 fresh_game). lia.
Defined.

(** An entry that is not an integer is refused the same way. *)
Lemma main_choice_2_invalid g :
  main_choice_2 None g = (Ok PrintedInvalidInput, g).
Proof. reflexivity. Qed.

(** With a quantity of at least 1 the menu entry does buy. *)
Lemma main_choice_2_buys q g :
  1 <= q ->
  main_choice_2 (Some q) g =
  (Ok (PrintedBought (mkBuyResult true (MsgBought q (5 * q))
         (tokens (player_data g) + 5 * q) (balance (player_data g)))),
   snd (buy_gacha_pack q g)).
Proof.
  intros H. unfold main_choice_2.
  destruct (Z.ltb_spec q 1); [lia | reflexivity].
Qed.

(** ** Spins *)

Lemma refused_means_no_reset g :
  attempts_left (player_data (after_cooldown g)) <= 0 ->
  after_cooldown g = ticked g.
Proof.
  intros H.
  destruct (after_cooldown_cases g) as [(_ & _ & E) | (_ & _ & E)];
    [| exact E].
  rewrite E in H. cbn in H. lia.
Qed.

Lemma minutes_seconds t :
  0 <= t ->
  minutes_of t * 60 + seconds_of t = t / 1000000 /\ 0 <= seconds_of t < 60.
Proof.
  intros Ht. unfold minutes_of, seconds_of.
  change (60 * 1000000) with 60000000.
  pose proof (Z.div_mod t 60000000 ltac:(lia)) as E.
  pose proof (Z.mod_pos_bound t 60000000 ltac:(lia)) as B.
  split.
  - rewrite E at 3.
    replace (60000000 * (t / 60000000) + t mod 60000000)
      with (t / 60000000 * 60 * 1000000 + t mod 60000000) by lia.
    rewrite Z.div_add_l by lia. reflexivity.
  - split.
    + apply Z.div_pos; lia.
    + apply Z.div_lt_upper_bound; lia.
Qed.

(** C6. When [attempts_left <= 0] after the cooldown check, [gacha_spin]
    returns the failure dictionary (success false, attempts 0) whose message
    carries a time until the reset, in minutes and seconds; no save is made,
    and the dictionary, the file and the log of writes are what they were
    before the call.  When the second reading of the clock is not behind
    the last reset, so that at most 15 minutes remain, the minutes and
    seconds of the message are the whole seconds that remain at that
    reading. *)
Theorem gacha_spin_exhausted (g : GachaGame) :
  attempts_left (player_data (after_cooldown g)) <= 0 ->
  let later := clock (world g) (S (ticks (world g))) in
  let remaining :=
    Z.max 0 (last_reset_time (player_data g) + timedelta_minutes 15 - later) in
  exists minutes seconds g',
    gacha_spin g =
    (Ok (mkSpinResult None None None (Some false)
           (Some (MsgNoAttempts minutes seconds)) None (Some 0) None), g') /\
    player_data g' = player_data g /\
    disk (world g') = disk (world g) /\
    writes (world g') = writes (world g) /\
    (last_reset_time (player_data g) <= later ->
     minutes * 60 + seconds = remaining / 1000000 /\
     0 <= minutes <= 15 /\
     0 <= seconds < 60).
Proof.
  intros H later remaining.
  pose proof (refused_means_no_reset g H) as E.
  eexists _, _, _. split; [apply gacha_spin_refused; exact H |].
  rewrite E. cbn [ticked player_data world tick disk writes].
  assert (Et : time_left (ticked g) = remaining) by reflexivity.
  rewrite Et.
  repeat split.
  - destruct (minutes_seconds remaining) as [Hm _];
      [subst remaining; lia | exact Hm].
  - apply Z.div_pos; [subst remaining; lia | reflexivity].
  - unfold minutes_of. change (60 * 1000000) with 60000000.
    apply Z.div_le_upper_bound; [reflexivity |].
    subst remaining. unfold timedelta_minutes. lia.
  - destruct (minutes_seconds remaining) as [_ Hs];
      [subst remaining; lia | apply Hs].
  - destruct (minutes_seconds remaining) as [_ Hs];
      [subst remaining; lia | apply Hs].
Qed.

(** The third scenario: no attempts left, and a reset two minutes ago. *)
Lemma gacha_spin_exhausted_witness :
  attempts_left (player_data (after_cooldown two_minutes_in)) <= 0 /\
  last_reset_time (player_data two_minutes_in)
  <= clock (world two_minutes_in) (S (ticks (world two_minutes_in))) /\
  exists minutes seconds g',
    gacha_spin two_minutes_in =
    (Ok (mkSpinResult None None None (Some false)
           (Some (MsgNoAttempts minutes seconds)) None (Some 0) None), g') /\
    player_data g' = idle_player /\
    disk (world g') = None /\
    writes (world g') = [] /\
    minutes * 60 + seconds = 780 /\
    0 <= minutes <= 15 /\
    0 <= seconds < 60.
Proof.
  split; [vm_compute; discriminate |].
  split; [vm_compute; discriminate |].
  destruct (gacha_spin_exhausted two_minutes_in)
    as (minutes & seconds & g' & E & Hd & Hf & Hw & Ht).
  - vm_compute. discriminate.
  - exists minutes, seconds, g'.
    destruct Ht as (Hm & Hr & Hs); [vm_compute; discriminate |].
    repeat split; try assumption; apply Hr || apply Hs.
Defined.

Example scenario_3 :
  gacha_spin two_minutes_in =
  (Ok (mkSpinResult None None None (Some false)
         (Some (MsgNoAttempts 13 0)) None (Some 0) None),
   ticked (ticked two_minutes_in)).
Proof. reflexivity. Qed.

(** C7. A spin that is played applies exactly one branch to the dictionary
    left by the cooldown check: when the flag [is_win] of [spin_gacha] is
    true, [balance] grows by exactly 10000 and [total_wins] by exactly 1,
    and [total_losses] is unchanged; when it is false, [total_losses] grows
    by exactly 1, and [balance] and [total_wins] are unchanged.  Either way
    one attempt is consumed, [tokens] is untouched and the dictionary is
    saved. *)
Theorem gacha_spin_applies_one_branch (g : GachaGame) :
  0 < attempts_left (player_data (after_cooldown g)) ->
  let d := player_data (after_cooldown g) in
  exists is_win row1 row2 row3 g0 result g',
    spin_gacha (after_cooldown g) = (Ok (is_win, row1, row2, row3), g0) /\
    gacha_spin g = (Ok result, g') /\
    sr_success result = Some is_win /\
    (if is_win : bool
     then balance (player_data g') = balance d + 10000 /\
          total_wins (player_data g') = total_wins d + 1 /\
          total_losses (player_data g') = total_losses d
     else total_losses (player_data g') = total_losses d + 1 /\
          balance (player_data g') = balance d /\
          total_wins (player_data g') = total_wins d) /\
    attempts_left (player_data g') = attempts_left d - 1 /\
    tokens (player_data g') = tokens d /\
    last_reset_time (player_data g') = last_reset_time d /\
    sr_balance result = Some (balance (player_data g')) /\
    disk (world g') = Some (player_data g') /\
    balance d = balance (player_data g) /\
    total_wins d = total_wins (player_data g) /\
    total_losses d = total_losses (player_data g).
Proof.
  intros H d.
  destruct (gacha_spin_played g H) as (result & E & Hs & Hb & _).
  eexists _, _, _, _, _, result, _.
  split; [apply spin_gacha_run |].
  split; [exact E |].
  split; [exact Hs |].
  cbn [player_data world dump disk].
  split; [| repeat split; try exact Hb;
            subst d; destruct (after_cooldown_data g) as [-> | ->];
            reflexivity].
  change (verdict _ _ _) with (next_is_win (after_cooldown g)).
  destruct (next_is_win (after_cooldown g)); repeat split.
Qed.

(** The first scenario: a new player, and a generator whose nine draws all
    give the first symbol. *)
Lemma gacha_spin_applies_one_branch_witness :
  0 < attempts_left (player_data (after_cooldown fresh_game)) /\
  exists result g',
    gacha_spin fresh_game = (Ok result, g') /\
    sr_success result = Some true /\
    balance (player_data g') = 10000 /\
    total_wins (player_data g') = 1 /\
    total_losses (player_data g') = 0 /\
    attempts_left (player_data g') = 9.
Proof.
  split; [reflexivity |].
  destruct (gacha_spin_applies_one_branch fresh_game)
    as (is_win & row1 & row2 & row3 & g0 & result & g' & Es & E & Hs & Hb
        & Ha & _).
  - reflexivity.
  - assert (Ew : is_win = true).
    { rewrite spin_gacha_run in Es. injection Es as Ew _ _ _ _.
      rewrite <- Ew. reflexivity. }
    subst is_win. destruct Hb as (B & W & L).
    exists result, g'. repeat split; assumption.
Defined.

Example scenario_1 :
  player_data (snd (gacha_spin fresh_game)) = mkPlayerData 10000 0 9 0 1 0.
Proof. reflexivity. Qed.

(** A generator that walks through the alphabet gives a losing grid. *)
Example losing_spin :
  player_data
    (snd (gacha_spin (mkGame (new_player 0)
            (mkWorld None [] (fun _ => 0) 0 (fun k => k) 0)))) =
  mkPlayerData 0 0 9 0 0 1.
Proof. reflexivity. Qed.

(** ** What the four actions do to the balance and to the attempts *)

Lemma perform_purchase_data q g :
  player_data (perform (Purchase q) g) =
  with_tokens (tokens (player_data g) + 5 * q) (player_data g).
Proof. reflexivity. Qed.

Lemma perform_reset_data g :
  player_data (perform Reset g) = new_player (next_now g).
Proof. reflexivity. Qed.

(** C3, as stated, fails on [reset_game]: a player who holds 10000 coins
    holds none after a reset. *)
Lemma reset_game_lowers_balance :
  let g := holding (mkPlayerData 10000 0 9 0 1 0) fresh_game in
  balance (player_data g) = 10000 /\
  balance (player_data (perform Reset g)) = 0 /\
  balance (player_data (perform Reset g)) < balance (player_data g).
Proof. repeat split. Qed.

(** C3, amended.  A spin, a purchase and a status read never lower the
    balance: the purchase and the status read leave it as it is, and the
    spin leaves it as it is or, on a winning spin that is played, adds
    exactly 10000 to it (with one more win counted).  A reset sets the
    balance to 0, whatever it was. *)
Theorem balance_after_action (a : action) (g : GachaGame) :
  let b := balance (player_data g) in
  let b' := balance (player_data (perform a g)) in
  match a with
  | Spin =>
      b <= b' /\
      (b' = b \/
       (b' = b + 10000 /\
        0 < attempts_left (player_data (after_cooldown g)) /\
        next_is_win (after_cooldown g) = true /\
        total_wins (player_data (perform a g)) =
        total_wins (player_data g) + 1))
  | Purchase _ => b' = b
  | ReadStatus => b' = b
  | Reset => b' = 0
  end.
Proof.
  intros b b'. subst b b'. destruct a as [| q | |].
  - rewrite perform_spin_data.
    assert (Eb : balance (player_data (after_cooldown g))
                 = balance (player_data g))
      by (destruct (after_cooldown_data g) as [-> | ->]; reflexivity).
    assert (Ew : total_wins (player_data (after_cooldown g))
                 = total_wins (player_data g))
      by (destruct (after_cooldown_data g) as [-> | ->]; reflexivity).
    destruct (Z.leb_spec (attempts_left (player_data (after_cooldown g))) 0).
    + rewrite Eb. split; [lia | left; reflexivity].
    + destruct (next_is_win (after_cooldown g));
        cbn [played balance total_wins]; rewrite Eb, ?Ew.
      * split; [lia | right; repeat split; assumption].
      * split; [lia | left; reflexivity].
  - reflexivity.
  - rewrite perform_status_data.
    destruct (after_cooldown_data g) as [-> | ->]; reflexivity.
  - reflexivity.
Qed.

Lemma after_cooldown_attempts g :
  attempts_left (player_data (after_cooldown g)) = attempts_left (player_data g)
  \/ attempts_left (player_data (after_cooldown g)) = 10.
Proof.
  destruct (after_cooldown_data g) as [-> | ->]; [left | right]; reflexivity.
Qed.

Lemma perform_keeps_range a g :
  attempts_in_range g -> attempts_in_range (perform a g).
Proof.
  unfold attempts_in_range. intros H.
  pose proof (after_cooldown_attempts g) as Hc.
  destruct a as [| q | |].
  - rewrite perform_spin_data.
    destruct (Z.leb_spec (attempts_left (player_data (after_cooldown g))) 0);
      cbn [played attempts_left]; lia.
  - rewrite perform_purchase_data. exact H.
  - rewrite perform_status_data. lia.
  - rewrite perform_reset_data. cbn. lia.
Qed.

Lemma session_keeps_range script : forall g,
  attempts_in_range g -> attempts_in_range (session script g).
Proof.
  induction script as [| a script IH]; intros g H.
  - exact H.
  - cbn [session fold_left]. apply IH, perform_keeps_range, H.
Qed.

(** C4. From a dictionary whose [attempts_left] is in [0, 10], every
    sequence of spins, purchases, status reads and resets ends with
    [attempts_left] in [0, 10], so it never goes negative.  And a spin that
    finds [attempts_left = 0] after the cooldown check reports failure, and
    changes neither the dictionary nor the file. *)
Theorem attempts_left_stays_in_range (g : GachaGame) (script : list action) :
  (attempts_in_range g -> attempts_in_range (session script g)) /\
  (attempts_left (player_data (after_cooldown g)) = 0 ->
   exists result g',
     gacha_spin g = (Ok result, g') /\
     sr_success result = Some false /\
     sr_attempts_left result = Some 0 /\
     player_data g' = player_data (after_cooldown g) /\
     player_data g' = player_data g /\
     disk (world g') = disk (world g) /\
     writes (world g') = writes (world g)).
Proof.
  split; [apply session_keeps_range |].
  intros H.
  assert (H' : attempts_left (player_data (after_cooldown g)) <= 0) by lia.
  pose proof (refused_means_no_reset g H') as E.
  eexists _, _. split; [apply gacha_spin_refused; exact H' |].
  rewrite E. repeat split.
Qed.

Lemma attempts_left_stays_in_range_witness :
  (attempts_in_range fresh_game /\
   attempts_in_range
     (session [Spin; Purchase 2; ReadStatus; Reset; Spin] fresh_game)) /\
  (attempts_left (player_data (after_cooldown two_minutes_in)) = 0 /\
   exists result g',
     gacha_spin two_minutes_in = (Ok result, g') /\
     sr_success result = Some false /\
     sr_attempts_left result = Some 0 /\
     player_data g' = player_data (after_cooldown two_minutes_in) /\
     player_data g' = player_data two_minutes_in /\
     disk (world g') = disk (world two_minutes_in) /\
     writes (world g') = writes (world two_minutes_in)).
Proof.
  assert (R : attempts_in_range fresh_game)
    by (unfold attempts_in_range; cbn; lia).
  split.
  - split; [exact R |].
    apply (attempts_left_stays_in_range fresh_game
             [Spin; Purchase 2; ReadStatus; Reset; Spin]), R.
  - split; [reflexivity |].
    apply (attempts_left_stays_in_range two_minutes_in []). reflexivity.
Defined.

(** Ten spins in a row use the ten attempts of a new player; the eleventh
    is refused. *)
Example eleven_spins :
  attempts_left
    (player_data (session (repeat Spin 10) fresh_game)) = 0 /\
  attempts_left
    (player_data (session (repeat Spin 11) fresh_game)) = 0.
Proof. split; reflexivity. Qed.

(** * Further properties *)

(** ** The timer *)



(** X2. When the clock is not behind the last reset, the timer that the
    messages show is at most 15 minutes: the minutes are in [0, 15], the
    seconds in [0, 59], and together they are the whole seconds that remain,
    at most 900. *)
Theorem timer_within_fifteen_minutes (g : GachaGame) :
  last_reset_time (player_data g) <= clock (world g) (ticks (world g)) ->
  exists t g',
    get_time_until_reset g = (Ok t, g') /\
    0 <= minutes_of t <= 15 /\
    0 <= seconds_of t <= 59 /\
    minutes_of t * 60 + seconds_of t = t / 1000000 /\
    minutes_of t * 60 + seconds_of t <= 900.
Proof.
  intros H. eexists _, _. split; [apply get_time_until_reset_run |].
  unfold next_now.
  set (t := Z.max 0 _).
  assert (Ht : 0 <= t <= 900000000)
    by (subst t; unfold timedelta_minutes; lia).
  destruct (minutes_seconds t) as [E B]; [lia |].
  assert (Hq : 0 <= t / 1000000 <= 900).
  { split; [apply Z.div_pos; lia |].
    apply Z.div_le_upper_bound; lia. }
  assert (Hm : 0 <= minutes_of t <= 15).
  { unfold minutes_of. change (60 * 1000000) with 60000000. split.
    - apply Z.div_pos; lia.
    - apply Z.div_le_upper_bound; lia. }
  repeat split; try lia.
Qed.

Lemma timer_within_fifteen_minutes_witness :
  last_reset_time (player_data two_minutes_in)
  <= clock (world two_minutes_in) (ticks (world two_minutes_in)) /\
  exists t g',
    get_time_until_reset two_minutes_in = (Ok t, g') /\
    0 <= minutes_of t <= 15 /\
    0 <= seconds_of t <= 59 /\
    minutes_of t * 60 + seconds_of t = t / 1000000 /\
    minutes_of t * 60 + seconds_of t <= 900.
Proof.
  split; [vm_compute; discriminate |].
  apply (timer_within_fifteen_minutes two_minutes_in).
  vm_compute. discriminate.
Defined.

(** ** The status *)

Lemma get_player_status_full g :
  let g1 := after_cooldown g in
  let d := player_data g1 in
  get_player_status g =
  (Ok (mkStatus (balance d) (tokens d) (attempts_left d) (total_wins d)
                (total_losses d)
                (if attempts_left d <? 10
                 then Timer (minutes_of (time_left g1))
                            (seconds_of (time_left g1))
                 else Penuh)),
   ticked g1).
Proof.
  intros g1 d. unfold get_player_status.
  destruct (check_reset_cooldown_ok g) as [b Eb].
  erewrite bind_ok by exact Eb.
  erewrite bind_ok by apply get_time_until_reset_run.
  reflexivity.
Qed.

(** X3. [get_player_status] reports the dictionary as the cooldown check
    leaves it: the five numbers of the status are those of the dictionary
    after the call; the balance, the tokens and the two counters are those
    from before the call; [attempts_left] is what it was or 10; and
    [next_reset] is the text "Penuh" exactly when [attempts_left] is 10 or
    more, a timer otherwise. *)
Theorem get_player_status_snapshot (g : GachaGame) :
  exists status g',
    get_player_status g = (Ok status, g') /\
    st_balance status = balance (player_data g') /\
    st_tokens status = tokens (player_data g') /\
    st_attempts_left status = attempts_left (player_data g') /\
    st_total_wins status = total_wins (player_data g') /\
    st_total_losses status = total_losses (player_data g') /\
    balance (player_data g') = balance (player_data g) /\
    tokens (player_data g') = tokens (player_data g) /\
    total_wins (player_data g') = total_wins (player_data g) /\
    total_losses (player_data g') = total_losses (player_data g) /\
    (attempts_left (player_data g') = attempts_left (player_data g) \/
     attempts_left (player_data g') = 10) /\
    (st_next_reset status = Penuh <-> 10 <= attempts_left (player_data g')).
Proof.
  eexists _, _. split; [apply get_player_status_full |].
  cbn [st_balance st_tokens st_attempts_left st_total_wins st_total_losses
       st_next_reset ticked player_data].
  repeat split;
    try (destruct (after_cooldown_data g) as [-> | ->]; reflexivity).
  - apply after_cooldown_attempts.
  - destruct (Z.ltb_spec (attempts_left (player_data (after_cooldown g))) 10);
      [discriminate | intros _; assumption].
  - destruct (Z.ltb_spec (attempts_left (player_data (after_cooldown g))) 10);
      [lia | reflexivity].
Qed.

(** X4. A status read is not read-only: when the cooldown has elapsed at
    the reading of the clock, [get_player_status] resets the attempts to 10,
    moves [last_reset_time] to that reading, writes the dictionary to the
    save file, and reports 10 attempts and "Penuh". *)
Theorem get_player_status_resets (g : GachaGame) :
  last_reset_time (player_data g) + timedelta_minutes 15
  <= clock (world g) (ticks (world g)) ->
  exists status g',
    get_player_status g = (Ok status, g') /\
    st_attempts_left status = 10 /\
    st_next_reset status = Penuh /\
    attempts_left (player_data g') = 10 /\
    last_reset_time (player_data g') = clock (world g) (ticks (world g)) /\
    disk (world g') = Some (player_data g') /\
    writes (world g') = player_data g' :: writes (world g).
Proof.
  intros H. eexists _, _. split; [apply get_player_status_full |].
  destruct (after_cooldown_cases g) as [(_ & _ & E) | (Hn & _)];
    [| unfold next_now in Hn; lia].
  rewrite E. repeat split.
Qed.

Lemma get_player_status_resets_witness :
  last_reset_time (player_data twenty_minutes_in) + timedelta_minutes 15
  <= clock (world twenty_minutes_in) (ticks (world twenty_minutes_in)) /\
  exists status g',
    get_player_status twenty_minutes_in = (Ok status, g') /\
    st_attempts_left status = 10 /\
    st_next_reset status = Penuh /\
    attempts_left (player_data g') = 10 /\
    last_reset_time (player_data g') = 1200000000 /\
    disk (world g') = Some (player_data g') /\
    writes (world g') = [player_data g'].
Proof.
  split; [vm_compute; discriminate |].
  apply (get_player_status_resets twenty_minutes_in).
  vm_compute. discriminate.
Defined.

(** With the cooldown still running, the status read writes nothing. *)
Lemma get_player_status_quiet g :
  clock (world g) (ticks (world g))
  < last_reset_time (player_data g) + timedelta_minutes 15 ->
  snd (get_player_status g) = ticked (ticked g).
Proof.
  intros H. rewrite get_player_status_full. cbn [snd].
  destruct (after_cooldown_cases g) as [(Hn & _) | (_ & _ & E)];
    [unfold next_now in Hn; lia |].
  rewrite E. reflexivity.
Qed.

(** ** The save file *)


Lemma world_after_cooldown g :
  world (after_cooldown g) = tick (world g) \/
  world (after_cooldown g) =
  dump (player_data (after_cooldown g)) (tick (world g)).
Proof.
  destruct (after_cooldown_cases g) as [(_ & _ & ->) | (_ & _ & ->)];
    [right | left]; reflexivity.
Qed.








(** ** Played spins *)

(** The whole of a played spin: what it returns and what it leaves. *)
Lemma gacha_spin_played_full g :
  0 < attempts_left (player_data (after_cooldown g)) ->
  let g1 := after_cooldown g in
  let w := world g1 in
  let k := draws w in
  let is_win := next_is_win g1 in
  let d := played is_win (player_data g1) in
  let w9 := Nat.iter 9 draw w in
  gacha_spin g =
  (Ok (played_result is_win (row_at w k) (row_at w (3 + k)) (row_at w (6 + k)) d
         (if attempts_left d =? 0
          then Some (minutes_of (time_left g1), seconds_of (time_left g1))
          else None)),
   mkGame d (dump d (if attempts_left d =? 0 then tick w9 else w9))).
Proof.
  intros H g1 w k is_win d w9. unfold gacha_spin.
  destruct (check_reset_cooldown_ok g) as [b Eb].
  erewrite bind_ok by exact Eb.
  erewrite bind_ok by reflexivity.
  fold g1. destruct (Z.leb_spec (attempts_left (player_data g1)) 0);
    [unfold g1 in *; lia |].
  erewrite bind_ok by apply spin_gacha_run.
  change (verdict _ _ _) with is_win.
  unfold bind, update, get_data, ret, save_data.
  cbn [player_data world drawn]. fold w w9.
  subst d. destruct is_win;
    cbn [player_data world with_attempts_left
      with_balance with_total_wins with_total_losses attempts_left balance
      tokens last_reset_time total_wins total_losses played];
    destruct (attempts_left (player_data g1) - 1 =? 0);
    try rewrite get_time_until_reset_run;
    reflexivity.
Qed.

(** X7. A played spin shows the three rows joined by spaces, the win or
    loss message, the new balance and the attempts that remain; the entry
    [next_reset] is there exactly when the spin used the last attempt, and
    only then is the clock read a second time. *)
Theorem gacha_spin_played_result (g : GachaGame) :
  0 < attempts_left (player_data (after_cooldown g)) ->
  exists is_win row1 row2 row3 g0 result g',
    spin_gacha (after_cooldown g) = (Ok (is_win, row1, row2, row3), g0) /\
    gacha_spin g = (Ok result, g') /\
    sr_row1 result = Some (join row1) /\
    sr_row2 result = Some (join row2) /\
    sr_row3 result = Some (join row3) /\
    sr_success result = Some is_win /\
    sr_message result = Some (if is_win then MsgWin 10000 else MsgLose) /\
    sr_balance result = Some (balance (player_data g')) /\
    sr_attempts_left result = Some (attempts_left (player_data g')) /\
    (sr_next_reset result <> None <-> attempts_left (player_data g') = 0) /\
    ticks (world g') =
    ((if (attempts_left (player_data g') =? 0)%Z then 2 else 1)
     + ticks (world g))%nat.
Proof.
  intros H. eexists _, _, _, _, _, _, _.
  split; [apply spin_gacha_run |].
  split; [apply gacha_spin_played_full; exact H |].
  cbn [played_result sr_row1 sr_row2 sr_row3 sr_success sr_message
       sr_balance sr_attempts_left sr_next_reset player_data world].
  change (verdict _ _ _) with (next_is_win (after_cooldown g)).
  repeat split.
  - destruct (Z.eqb_spec
      (attempts_left (played (next_is_win (after_cooldown g))
                             (player_data (after_cooldown g)))) 0);
      [intros _; assumption | intros C; now elim C].
  - intros ->. discriminate.
  - destruct (_ =? 0); cbn [dump ticks tick Nat.iter nat_rect draw];
      destruct (world_after_cooldown g) as [-> | ->]; reflexivity.
Qed.

Lemma gacha_spin_played_result_witness :
  0 < attempts_left (player_data (after_cooldown last_attempt)) /\
  exists result g',
    gacha_spin last_attempt = (Ok result, g') /\
    sr_row1 result = Some "🎰 🎰 🎰" /\
    sr_success result = Some true /\
    sr_attempts_left result = Some 0 /\
    sr_next_reset result = Some (15, 0).
Proof.
  split; [reflexivity |].
  destruct (gacha_spin_played_result last_attempt)
    as (is_win & row1 & row2 & row3 & g0 & result & g' & _ & E & _).
  - reflexivity.
  - exists result, g'. split; [exact E |].
    vm_compute in E. injection E as <- <-. repeat split.
Defined.

(** ** Sessions *)

Lemma after_cooldown_keeps_ledger g :
  ledger_consistent (player_data g) ->
  ledger_consistent (player_data (after_cooldown g)).
Proof.
  destruct (after_cooldown_data g) as [-> | ->]; intros H; exact H.
Qed.

Lemma perform_keeps_ledger a g :
  ledger_consistent (player_data g) ->
  ledger_consistent (player_data (perform a g)).
Proof.
  intros H. destruct a as [| q | |].
  - rewrite perform_spin_data.
    apply after_cooldown_keeps_ledger in H.
    destruct (_ <=? 0); [exact H |].
    unfold ledger_consistent in *.
    destruct (next_is_win (after_cooldown g));
      cbn [played balance total_wins total_losses]; lia.
  - rewrite perform_purchase_data. exact H.
  - rewrite perform_status_data. apply after_cooldown_keeps_ledger, H.
  - rewrite perform_reset_data. unfold ledger_consistent. cbn. lia.
Qed.

(** X8. The balance is the pay of the wins: from a dictionary with
    [balance = 10000 * total_wins] and counters that are not negative, as a
    new player's is, every sequence of spins, purchases, status reads and
    resets keeps [balance = 10000 * total_wins] and keeps both counters and
    the balance from going negative. *)
Theorem session_keeps_ledger (g : GachaGame) (script : list action) :
  ledger_consistent (player_data g) ->
  ledger_consistent (player_data (session script g)) /\
  0 <= balance (player_data (session script g)).
Proof.
  revert g. induction script as [| a script IH]; intros g H.
  - cbn [session fold_left]. split; [exact H |].
    unfold ledger_consistent in H. lia.
  - cbn [session fold_left]. apply IH, perform_keeps_ledger, H.
Qed.

Lemma session_keeps_ledger_witness :
  ledger_consistent (player_data fresh_game) /\
  ledger_consistent
    (player_data (session [Spin; Purchase 2; Spin; ReadStatus] fresh_game)) /\
  0 <= balance
         (player_data (session [Spin; Purchase 2; Spin; ReadStatus] fresh_game)).
Proof.
  assert (H : ledger_consistent (player_data fresh_game))
    by (unfold ledger_consistent; cbn; lia).
  split; [exact H |].
  apply (session_keeps_ledger fresh_game [Spin; Purchase 2; Spin; ReadStatus]), H.
Defined.

(** No action replaces the clock. *)
Lemma after_cooldown_clock g : clock (world (after_cooldown g)) = clock (world g).
Proof. destruct (world_after_cooldown g) as [-> | ->]; reflexivity. Qed.

Lemma perform_clock a g : clock (world (perform a g)) = clock (world g).
Proof.
  destruct a as [| q | |]; cbn [perform].
  - destruct (Z.leb_spec (attempts_left (player_data (after_cooldown g))) 0)
      as [L | L].
    + rewrite gacha_spin_refused by exact L. apply after_cooldown_clock.
    + rewrite gacha_spin_played_full by exact L.
      cbn [snd world dump clock].
      destruct (_ =? 0); cbn [tick clock Nat.iter nat_rect draw];
        apply after_cooldown_clock.
  - reflexivity.
  - rewrite get_player_status_full. apply after_cooldown_clock.
  - reflexivity.
Qed.

Lemma within_window_no_reset g :
  within_window g -> player_data (after_cooldown g) = player_data g.
Proof.
  intros H.
  destruct (after_cooldown_cases g) as [(Hn & _) | (_ & _ & ->)];
    [| reflexivity].
  specialize (H (ticks (world g))). unfold next_now in Hn. lia.
Qed.

Lemma perform_within_window a g :
  a <> Reset -> within_window g -> 0 <= attempts_left (player_data g) ->
  within_window (perform a g) /\
  0 <= attempts_left (player_data (perform a g)) /\
  spins_and_attempts (player_data (perform a g))
  = spins_and_attempts (player_data g).
Proof.
  intros Ha Hw Hn.
  assert (Hd : player_data (perform a g) = player_data g \/
               (0 < attempts_left (player_data g) /\
                player_data (perform a g)
                = played (next_is_win (after_cooldown g)) (player_data g)) \/
               exists q, player_data (perform a g)
                         = with_tokens q (player_data g)).
  { destruct a as [| q | |].
    - rewrite perform_spin_data, within_window_no_reset by exact Hw.
      destruct (Z.leb_spec (attempts_left (player_data g)) 0);
        [left | right; left]; auto.
    - right; right. eexists. apply perform_purchase_data.
    - left. rewrite perform_status_data.
      apply within_window_no_reset, Hw.
    - now elim Ha. }
  assert (Hl : last_reset_time (player_data (perform a g))
               = last_reset_time (player_data g)).
  { destruct Hd as [-> | [[_ ->] | [q ->]]]; reflexivity. }
  split.
  - intros k. rewrite perform_clock, Hl. apply Hw.
  - unfold spins_and_attempts.
    destruct Hd as [-> | [[Hp ->] | [q ->]]].
    + split; [exact Hn | reflexivity].
    + destruct (next_is_win (after_cooldown g));
        cbn [played attempts_left total_wins total_losses]; lia.
    + split; [exact Hn | reflexivity].
Qed.

(** X9. The rationing: while the cooldown is still running at every
    reading of the clock, a sequence of spins, purchases and status reads
    plays at most as many spins as there were attempts.  The spins counted
    plus the attempts left stay the same, and the attempts left do not go
    negative. *)
Theorem spins_are_rationed (g : GachaGame) (script : list action) :
  within_window g ->
  0 <= attempts_left (player_data g) ->
  ~ In Reset script ->
  let d := player_data g in
  let d' := player_data (session script g) in
  total_wins d' + total_losses d' + attempts_left d'
  = total_wins d + total_losses d + attempts_left d /\
  0 <= attempts_left d' /\
  (total_wins d' + total_losses d') - (total_wins d + total_losses d)
  <= attempts_left d.
Proof.
  intros Hw Hn Hr. cbn zeta.
  assert (H : 0 <= attempts_left (player_data (session script g)) /\
              spins_and_attempts (player_data (session script g))
              = spins_and_attempts (player_data g)).
  { revert g Hw Hn. induction script as [| a script IH]; intros g Hw Hn.
    - split; [exact Hn | reflexivity].
    - cbn [session fold_left].
      destruct (perform_within_window a g) as (Hw' & Hn' & E); auto.
      { intros ->. apply Hr. left. reflexivity. }
      destruct (IH (fun C => Hr (or_intror C)) (perform a g) Hw' Hn')
        as [Hn'' E'].
      split; [exact Hn'' |]. unfold session in E'. rewrite E'. exact E. }
  unfold spins_and_attempts in H. lia.
Qed.

Lemma spins_are_rationed_witness :
  let d' := player_data (session (repeat Spin 12) fresh_game) in
  within_window fresh_game /\
  total_wins d' + total_losses d' + attempts_left d' = 0 + 0 + 10 /\
  0 <= attempts_left d' /\
  (total_wins d' + total_losses d') - (0 + 0) <= 10.
Proof.
  assert (Hw : within_window fresh_game) by (intros k; reflexivity).
  split; [exact Hw |].
  apply (spins_are_rationed fresh_game (repeat Spin 12) Hw).
  - cbn. lia.
  - cbn. intuition discriminate.
Defined.

(** ** Spins after a reset *)

(** X10. Once the cooldown has elapsed, a spin is never refused, whatever
    [attempts_left] was, zero or negative included: the cooldown check
    resets and saves, the spin is played and saved, and it leaves 9
    attempts, [last_reset_time] at the first reading of the clock, one more
    spin counted, and two more writes of the save file. *)
Theorem gacha_spin_after_cooldown (g : GachaGame) :
  last_reset_time (player_data g) + timedelta_minutes 15
  <= clock (world g) (ticks (world g)) ->
  let d := player_data g in
  let now := clock (world g) (ticks (world g)) in
  exists is_win result g',
    gacha_spin g = (Ok result, g') /\
    sr_success result = Some is_win /\
    sr_attempts_left result = Some 9 /\
    attempts_left (player_data g') = 9 /\
    last_reset_time (player_data g') = now /\
    total_wins (player_data g') + total_losses (player_data g')
    = total_wins d + total_losses d + 1 /\
    tokens (player_data g') = tokens d /\
    writes (world g') =
    player_data g'
    :: mkPlayerData (balance d) (tokens d) 10 now (total_wins d)
                    (total_losses d)
    :: writes (world g).
Proof.
  intros H d now.
  destruct (after_cooldown_cases g) as [(_ & _ & E) | (Hn & _)];
    [| unfold next_now in Hn; lia].
  assert (L : 0 < attempts_left (player_data (after_cooldown g)))
    by (rewrite E; cbn; lia).
  eexists _, _, _. split; [apply gacha_spin_played_full; exact L |].
  rewrite E.
  cbn [played_result sr_success sr_attempts_left player_data world reset_at
       played attempts_left last_reset_time tokens with_last_reset_time
       with_attempts_left dump writes].
  repeat split.
  destruct (next_is_win _);
    cbn [played total_wins total_losses with_last_reset_time
         with_attempts_left]; subst d; lia.
Qed.

Lemma gacha_spin_after_cooldown_witness :
  last_reset_time (player_data twenty_minutes_in) + timedelta_minutes 15
  <= clock (world twenty_minutes_in) (ticks (world twenty_minutes_in)) /\
  exists is_win result g',
    gacha_spin twenty_minutes_in = (Ok result, g') /\
    sr_success result = Some is_win /\
    sr_attempts_left result = Some 9 /\
    attempts_left (player_data g') = 9 /\
    last_reset_time (player_data g') = 1200000000 /\
    total_wins (player_data g') + total_losses (player_data g') = 0 + 0 + 1 /\
    tokens (player_data g') = 0 /\
    writes (world g') =
    [player_data g'; mkPlayerData 0 0 10 1200000000 0 0].
Proof.
  split; [vm_compute; discriminate |].
  apply (gacha_spin_after_cooldown twenty_minutes_in).
  vm_compute. discriminate.
Defined.

(** X11. [reset_game] gives the ten attempts back at once: the spin that
    follows a reset is always played, whatever the dictionary held before
    the reset and whatever the clock reads, and leaves 9 attempts, one spin
    counted, no tokens, and a balance of 0 or 10000. *)
Theorem gacha_spin_after_reset_game (g : GachaGame) :
  let d := player_data (perform Spin (perform Reset g)) in
  attempts_left d = 9 /\
  total_wins d + total_losses d = 1 /\
  tokens d = 0 /\
  (balance d = 0 /\ total_wins d = 0 \/ balance d = 10000 /\ total_wins d = 1).
Proof.
  cbn zeta. rewrite perform_spin_data.
  set (g1 := perform Reset g).
  assert (E : player_data (after_cooldown g1) = new_player (next_now g) \/
              player_data (after_cooldown g1)
              = new_player (next_now g1)).
  { destruct (after_cooldown_data g1) as [-> | ->]; [left | right];
      reflexivity. }
  destruct E as [-> | ->]; cbn [new_player attempts_left];
    change (10 <=? 0) with false; cbv iota;
    destruct (next_is_win (after_cooldown g1)); cbn; lia.
Qed.

(** ** The spin engine and the generator *)

(** X12. [spin_gacha] draws from the generator exactly nine times, row by
    row, each cell being the symbol that its draw selects in the alphabet;
    it reads no clock, and changes neither the dictionary nor the file. *)
Theorem spin_gacha_draws_nine (g : GachaGame) :
  let w := world g in
  let k := draws w in
  let cell i := nth (rng w (k + i) mod 6)%nat symbols "" in
  exists is_win g',
    spin_gacha g =
    (Ok (is_win, [cell 0; cell 1; cell 2]%nat, [cell 3; cell 4; cell 5]%nat,
         [cell 6; cell 7; cell 8]%nat), g') /\
    player_data g' = player_data g /\
    draws (world g') = (9 + k)%nat /\
    ticks (world g') = ticks w /\
    disk (world g') = disk w /\
    writes (world g') = writes w.
Proof.
  intros w k cell. eexists _, _. split.
  - rewrite spin_gacha_run. unfold row_at, symbol_at. fold w k. subst cell.
    cbn beta.
    replace (k + 0)%nat with k by lia.
    replace (k + 1)%nat with (1 + k)%nat by lia.
    replace (k + 2)%nat with (2 + k)%nat by lia.
    replace (k + 3)%nat with (3 + k)%nat by lia.
    replace (k + 4)%nat with (1 + (3 + k))%nat by lia.
    replace (k + 5)%nat with (2 + (3 + k))%nat by lia.
    replace (k + 6)%nat with (6 + k)%nat by lia.
    replace (k + 7)%nat with (1 + (6 + k))%nat by lia.
    replace (k + 8)%nat with (2 + (6 + k))%nat by lia.
    reflexivity.
  - repeat split.
Qed.

(** ** The shell *)

Lemma print_app l ls c :
  print l (mkConsole (game c) (stdout c ++ ls))
  = (Fine tt, mkConsole (game c) (stdout c ++ ls ++ [l])).
Proof. unfold print. cbn [game stdout]. now rewrite <- app_assoc. Qed.

(** X13. The menu entry "1" with no attempts left ends the program: the
    dictionary that [gacha_spin] returns on refusal has no key [row1], so
    [main] raises [KeyError] on it right after printing the rule, before
    the refusal message is shown.  The lines still to come on the input are
    not read, and the dictionary and the save file are as they were. *)
Theorem main_loop_crashes_when_exhausted
        (a : answer) (rest : list answer) (c : Console) :
  stripped a = "1" ->
  attempts_left (player_data (after_cooldown (game c))) <= 0 ->
  exists c',
    main_loop (a :: rest) c = (Crashed (KeyError "row1"), c') /\
    stdout c' = (stdout c ++ [LMenu; LPromptChoice; LSpinning; LRule])%list /\
    player_data (game c') = player_data (game c) /\
    disk (world (game c')) = disk (world (game c)) /\
    writes (world (game c')) = writes (world (game c)).
Proof.
  intros Ha H. eexists. split.
  - cbn [main_loop]. rewrite Ha. cbn [String.eqb Ascii.eqb Bool.eqb].
    unfold display_menu, menu_1, sh_bind at 1 2 3 4 5.
    unfold print at 1 2 3. cbn [game stdout].
    unfold call. cbn [game stdout].
    rewrite gacha_spin_refused by exact H.
    unfold sh_bind at 1. unfold print at 1. cbn [game stdout].
    unfold sh_bind, item, sh_crash. cbn [sr_row1].
    reflexivity.
  - rewrite (refused_means_no_reset _ H).
    cbn [stdout game ticked player_data world tick disk writes].
    rewrite <- !app_assoc. repeat split.
Qed.

Lemma main_loop_crashes_when_exhausted_witness :
  stripped (types "1") = "1" /\
  attempts_left (player_data (after_cooldown two_minutes_in)) <= 0 /\
  exists c',
    main_loop [types "1"; types "5"] (console_of two_minutes_in)
    = (Crashed (KeyError "row1"), c') /\
    stdout c' = [LMenu; LPromptChoice; LSpinning; LRule] /\
    player_data (game c') = idle_player /\
    disk (world (game c')) = None /\
    writes (world (game c')) = [].
Proof.
  split; [reflexivity |]. split; [vm_compute; discriminate |].
  apply (main_loop_crashes_when_exhausted (types "1") [types "5"]
           (console_of two_minutes_in)).
  - reflexivity.
  - vm_compute. discriminate.
Defined.

Lemma sh_bind_print {B} l (k : unit -> Sh B) c :
  sh_bind (print l) k c = k tt (mkConsole (game c) (stdout c ++ [l])).
Proof. reflexivity. Qed.

Lemma sh_bind_fine {A B} (m : Sh A) (k : A -> Sh B) c a c' :
  m c = (Fine a, c') -> sh_bind m k c = k a c'.
Proof. intros E. unfold sh_bind. rewrite E. reflexivity. Qed.

Lemma sh_bind_crashed {A B} (m : Sh A) (k : A -> Sh B) c e c' :
  m c = (Crashed e, c') -> sh_bind m k c = (Crashed e, c').
Proof. intros E. unfold sh_bind. rewrite E. reflexivity. Qed.

Lemma sh_bind_ret {A B} (a : A) (k : A -> Sh B) c :
  sh_bind (sh_ret a) k c = k a c.
Proof. reflexivity. Qed.


Lemma true_div_outcome a b c :
  b <> 0 ->
  exists r,
    true_div a b c = (r, c) /\
    (r = Fine (a, b) \/ r = Crashed OverflowError).
Proof.
  intros Hb. unfold true_div.
  destruct (Z.eqb_spec b 0); [contradiction |].
  destruct (_ <=? _); eexists; (split; [reflexivity |]); auto.
Qed.


Lemma format_currency_outcome amount c :
  exists r,
    format_currency amount c = (r, c) /\
    (r = Fine (currency_text amount) \/ r = Crashed OverflowError).
Proof.
  unfold format_currency, currency_text.
  destruct (amount >=? 1000000).
  - destruct (true_div_outcome amount 1000000 c) as (r & E & [-> | ->]);
      [discriminate | |].
    + rewrite (sh_bind_fine _ _ _ _ _ E). eexists. split; [reflexivity |]. auto.
    + rewrite (sh_bind_crashed _ _ _ _ _ E). eexists.
      split; [reflexivity |]. auto.
  - destruct (amount >=? 1000).
    + destruct (true_div_outcome amount 1000 c) as (r & E & [-> | ->]);
        [discriminate | |].
      * rewrite (sh_bind_fine _ _ _ _ _ E). eexists.
        split; [reflexivity |]. auto.
      * rewrite (sh_bind_crashed _ _ _ _ _ E). eexists.
        split; [reflexivity |]. auto.
    + eexists. split; [reflexivity |]. auto.
Qed.


(** The menu entry "1" on a spin that was played. *)
Lemma menu_1_played c result g' row1 row2 row3 message balance attempts :
  gacha_spin (game c) = (Ok result, g') ->
  sr_row1 result = Some row1 -> sr_row2 result = Some row2 ->
  sr_row3 result = Some row3 -> sr_message result = Some message ->
  sr_balance result = Some balance ->
  sr_attempts_left result = Some attempts ->
  (format_currency balance
     (mkConsole g' (stdout c ++ [LSpinning; LRule; LRow row1; LRow row2;
                                 LRow row3; LRule; LMessage message]))
   = (Fine (currency_text balance),
      mkConsole g' (stdout c ++ [LSpinning; LRule; LRow row1; LRow row2;
                                 LRow row3; LRule; LMessage message])) /\
   menu_1 c
   = (Fine tt,
      mkConsole g' (stdout c ++ spin_lines result (currency_text balance))))
  \/
  menu_1 c
  = (Crashed OverflowError,
     mkConsole g' (stdout c ++ [LSpinning; LRule; LRow row1; LRow row2;
                                LRow row3; LRule; LMessage message])).
Proof.
  intros E H1 H2 H3 Hm Hb Ha.
  unfold menu_1, spin_lines. rewrite sh_bind_print.
  erewrite sh_bind_fine by (unfold call; cbn [game stdout]; rewrite E;
                            reflexivity).
  rewrite H1, H2, H3, Hm, Hb, Ha. cbn [item].
  repeat (rewrite ?sh_bind_print, ?sh_bind_ret; cbn [game stdout]).
  rewrite <- !app_assoc. cbn [app].
  set (c7 := mkConsole g' _).
  destruct (format_currency_outcome balance c7) as (r & Ef & [-> | ->]).
  - left. split; [exact Ef |].
    rewrite (sh_bind_fine _ _ _ _ _ Ef).
    repeat (rewrite ?sh_bind_print, ?sh_bind_ret; cbn [game stdout]).
    subst c7. cbn [game stdout].
    destruct (sr_next_reset result); unfold print, sh_ret; cbn [game stdout];
      rewrite <- !app_assoc; reflexivity.
  - right. rewrite (sh_bind_crashed _ _ _ _ _ Ef). reflexivity.
Qed.

(** What each menu entry does to the game, and how it can end. *)
Lemma menu_1_outcome c :
  exists r c',
    menu_1 c = (r, c') /\
    game c' = perform Spin (game c) /\
    (r = Fine tt \/ r = Crashed (KeyError "row1")
     \/ r = Crashed OverflowError).
Proof.
  destruct (Z.leb_spec (attempts_left (player_data (after_cooldown (game c)))) 0)
    as [L | L].
  - unfold menu_1. rewrite sh_bind_print.
    eexists _, _. split; [| split; [| right; left; reflexivity]].
    + erewrite sh_bind_fine.
      2:{ unfold call. cbn [game stdout].
          rewrite gacha_spin_refused by exact L. reflexivity. }
      rewrite sh_bind_print. reflexivity.
    + cbn [game perform]. rewrite gacha_spin_refused by exact L. reflexivity.
  - pose proof (gacha_spin_played_full (game c) L) as E. cbn zeta in E.
    cbn [perform]. rewrite E. cbn [snd].
    destruct (menu_1_played c _ _ _ _ _ _ _ _ E
                eq_refl eq_refl eq_refl eq_refl eq_refl eq_refl)
      as [[_ Em] | Em]; rewrite Em; eexists _, _;
      (split; [reflexivity |]); (split; [reflexivity |]); auto.
Qed.

Lemma menu_2_outcome entered c :
  exists r c',
    menu_2 entered c = (r, c') /\
    (game c' = game c \/
     exists q, 1 <= q /\ game c' = perform (Purchase q) (game c)) /\
    (r = Fine tt \/ r = Crashed OverflowError).
Proof.
  unfold menu_2. destruct entered as [q |].
  - destruct (Z.ltb_spec q 1) as [L | L].
    + assert (E : main_choice_2 (Some q) (game c)
                  = (Ok PrintedMinimumOnePack, game c)).
      { unfold main_choice_2. destruct (Z.ltb_spec q 1); [reflexivity | lia]. }
      erewrite sh_bind_fine by (unfold call; rewrite E; reflexivity).
      eexists _, _. split; [reflexivity |]. split; [left; reflexivity | auto].
    + erewrite sh_bind_fine
        by (unfold call; rewrite main_choice_2_buys by exact L; reflexivity).
      cbv beta iota. cbn [br_message br_balance br_tokens].
      rewrite sh_bind_print. set (c1 := mkConsole _ _).
      assert (G : game c1 = perform (Purchase q) (game c)) by reflexivity.
      clearbody c1.
      destruct (format_currency_outcome (balance (player_data (game c))) c1)
        as (r & Ef & [-> | ->]).
      * rewrite (sh_bind_fine _ _ _ _ _ Ef). rewrite !sh_bind_print.
        eexists _, _. split; [reflexivity |].
        split; [right; exists q; split; [exact L | exact G] | auto].
      * rewrite (sh_bind_crashed _ _ _ _ _ Ef).
        eexists _, _. split; [reflexivity |].
        split; [right; exists q; split; [exact L | exact G] | auto].
  - erewrite sh_bind_fine
      by (unfold call; rewrite main_choice_2_invalid; reflexivity).
    eexists _, _. split; [reflexivity |]. split; [left; reflexivity | auto].
Qed.

Lemma menu_3_outcome c :
  exists r c',
    menu_3 c = (r, c') /\
    game c' = perform ReadStatus (game c) /\
    (r = Fine tt \/ r = Crashed OverflowError).
Proof.
  unfold menu_3. rewrite sh_bind_print.
  erewrite sh_bind_fine.
  2:{ unfold call. cbn [game stdout]. rewrite get_player_status_full.
      reflexivity. }
  cbn [perform]. rewrite get_player_status_full. cbn [snd].
  cbn [st_balance st_tokens st_attempts_left st_total_wins st_total_losses
       st_next_reset].
  set (g1 := ticked (after_cooldown (game c))).
  set (c1 := mkConsole g1 _).
  destruct (format_currency_outcome
              (balance (player_data (after_cooldown (game c)))) c1)
    as (r & Ef & [-> | ->]).
  2:{ rewrite (sh_bind_crashed _ _ _ _ _ Ef).
      eexists _, _. split; [reflexivity |]. split; [reflexivity | auto]. }
  rewrite (sh_bind_fine _ _ _ _ _ Ef). rewrite !sh_bind_print.
  set (c2 := mkConsole _ _).
  assert (G : game c2 = g1) by reflexivity. clearbody c2.
  destruct (Z.gtb_spec
              (total_wins (player_data (after_cooldown (game c)))
               + total_losses (player_data (after_cooldown (game c)))) 0)
    as [P | P].
  - destruct (true_div_outcome
                (total_wins (player_data (after_cooldown (game c))))
                (total_wins (player_data (after_cooldown (game c)))
                 + total_losses (player_data (after_cooldown (game c))))
                c2 ltac:(lia)) as (r & Ed & [-> | ->]).
    + erewrite sh_bind_fine.
      2:{ rewrite (sh_bind_fine _ _ _ _ _ Ed). reflexivity. }
      rewrite ?sh_bind_print.
      eexists _, _. split; [reflexivity |]. split; [exact G | auto].
    + erewrite sh_bind_crashed.
      2:{ rewrite (sh_bind_crashed _ _ _ _ _ Ed). reflexivity. }
      eexists _, _. split; [reflexivity |]. split; [exact G | auto].
  - rewrite ?sh_bind_ret, ?sh_bind_print.
    eexists _, _. split; [reflexivity |]. split; [exact G | auto].
Qed.

Lemma menu_4_outcome confirm c :
  exists c',
    menu_4 confirm c = (Fine tt, c') /\
    (game c' = game c \/ game c' = perform Reset (game c)).
Proof.
  unfold menu_4. destruct (String.eqb confirm "yes").
  - eexists. split; [reflexivity |]. right. reflexivity.
  - eexists. split; [reflexivity |]. left. reflexivity.
Qed.

(** Every run of the loop is a session of the four actions. *)
Lemma main_loop_is_session n : forall stdin c,
  (List.length stdin <= n)%nat ->
  exists r c' script,
    main_loop stdin c = (r, c') /\
    Forall from_menu script /\
    game c' = session script (game c) /\
    ending r.
Proof.
  induction n as [| n IH]; intros stdin c Hn.
  - destruct stdin; [| cbn in Hn; lia].
    exists (Crashed EOFError), (mkConsole (game c)
                                  (stdout c ++ [LMenu; LPromptChoice])), [].
    split; [| split; [constructor | split; [reflexivity |]]].
    + cbn [main_loop]. unfold display_menu. rewrite !sh_bind_print.
      unfold sh_crash. cbn [game stdout]. rewrite <- app_assoc. reflexivity.
    + unfold ending. auto.
  - destruct stdin as [| a rest].
    { apply IH. cbn. lia. }
    cbn [List.length] in Hn.
    cbn [main_loop]. unfold display_menu. rewrite !sh_bind_print.
    set (c0 := mkConsole _ _).
    assert (G0 : game c0 = game c) by reflexivity.
    clearbody c0.
    assert (Step : forall (c2 : Console) (m : Sh unit) (a0 : action) rest0,
               game c2 = game c ->
               (List.length rest0 <= n)%nat ->
               (exists r1 c1, m c2 = (r1, c1) /\
                  (game c1 = game c2 \/
                   (from_menu a0 /\ game c1 = perform a0 (game c2))) /\
                  (r1 = Fine tt \/ r1 = Crashed (KeyError "row1")
                   \/ r1 = Crashed OverflowError)) ->
               exists r c' script,
                 sh_bind m (fun _ => main_loop rest0) c2 = (r, c') /\
                 Forall from_menu script /\
                 game c' = session script (game c) /\
                 ending r).
    { intros c2 m a0 rest0 G2 Hl (r1 & c1 & E & Hg & Hr).
      assert (Hc : r1 = Fine tt \/ exists e, r1 = Crashed e /\ ending r1).
      { destruct Hr as [-> | [-> | ->]]; [left; reflexivity | |];
          right; eexists; (split; [reflexivity |]); unfold ending; auto. }
      destruct Hc as [-> | (e & -> & He)].
      - rewrite (sh_bind_fine _ _ _ _ _ E).
        destruct (IH rest0 c1 Hl) as (r & c' & script & E' & Hs & Hg' & Hr').
        destruct Hg as [Hg | [Hm Hg]].
        + exists r, c', script. rewrite E', Hg', Hg, G2. auto.
        + exists r, c', (a0 :: script). rewrite E', Hg', Hg, G2.
          split; [reflexivity |]. split; [constructor; assumption |].
          split; [reflexivity | exact Hr'].
      - rewrite (sh_bind_crashed _ _ _ _ _ E).
        destruct Hg as [Hg | [Hm Hg]].
        + exists (Crashed e), c1, []. rewrite Hg, G2.
          split; [reflexivity |]. split; [constructor |].
          split; [reflexivity | exact He].
        + exists (Crashed e), c1, [a0]. rewrite Hg, G2.
          split; [reflexivity |]. split; [constructor; auto |].
          split; [reflexivity | exact He]. }
    assert (Eof : forall c1 : Console, game c1 = game c ->
               exists r c' script,
                 (sh_crash EOFError : Sh unit) c1 = (r, c') /\
                 Forall from_menu script /\
                 game c' = session script (game c) /\
                 ending r).
    { intros c1 G1. exists (Crashed EOFError), c1, []. rewrite G1.
      split; [reflexivity |]. split; [constructor |].
      split; [reflexivity | unfold ending; auto]. }
    destruct (String.eqb (stripped a) "1").
    { apply (Step c0 menu_1 Spin rest G0); [lia |].
      destruct (menu_1_outcome c0) as (r1 & c1 & E & Hg & Hr).
      exists r1, c1. split; [exact E |]. split; [| exact Hr].
      right. split; [exact I | exact Hg]. }
    destruct (String.eqb (stripped a) "2").
    { rewrite !sh_bind_print. set (c2 := mkConsole _ _).
      assert (G2 : game c2 = game c) by (subst c2; exact G0).
      clearbody c2.
      destruct rest as [| q rest']; [apply Eof; exact G2 |].
      cbn [List.length] in Hn.
      destruct (menu_2_outcome (as_int q) c2) as (r1 & c1 & E & Hg & Hr).
      destruct Hg as [Hg | (k & Hk & Hg)].
      - apply (Step c2 (menu_2 (as_int q)) Spin rest' G2); [lia |].
        exists r1, c1. split; [exact E |].
        split; [left; exact Hg | destruct Hr as [-> | ->]; auto].
      - apply (Step c2 (menu_2 (as_int q)) (Purchase k) rest' G2); [lia |].
        exists r1, c1. split; [exact E |].
        split; [right; split; [exact Hk | exact Hg]
               | destruct Hr as [-> | ->]; auto]. }
    destruct (String.eqb (stripped a) "3").
    { apply (Step c0 menu_3 ReadStatus rest G0); [lia |].
      destruct (menu_3_outcome c0) as (r1 & c1 & E & Hg & Hr).
      exists r1, c1. split; [exact E |].
      split; [right; split; [exact I | exact Hg]
             | destruct Hr as [-> | ->]; auto]. }
    destruct (String.eqb (stripped a) "4").
    { rewrite !sh_bind_print. set (c2 := mkConsole _ _).
      assert (G2 : game c2 = game c) by (subst c2; exact G0).
      clearbody c2.
      destruct rest as [| q rest']; [apply Eof; exact G2 |].
      cbn [List.length] in Hn.
      destruct (menu_4_outcome (lowered q) c2) as (c1 & E & Hg).
      apply (Step c2 (menu_4 (lowered q)) Reset rest' G2); [lia |].
      exists (Fine tt), c1. split; [exact E |].
      split; [| left; reflexivity].
      destruct Hg as [Hg | Hg]; [left; exact Hg |].
      right. split; [exact I | exact Hg]. }
    destruct (String.eqb (stripped a) "5").
    { exists (Fine tt), (mkConsole (game c0) (stdout c0 ++ [LBye])), [].
      split; [reflexivity |]. split; [constructor |].
      split; [exact G0 | unfold ending; auto]. }
    rewrite sh_bind_print. set (c2 := mkConsole _ _).
    destruct (IH rest c2 ltac:(lia)) as (r & c' & script & E' & Hs & Hg' & Hr').
    exists r, c', script. rewrite E', Hg'. subst c2. cbn [game]. rewrite G0.
    auto.
Qed.

Lemma run_of_main (w : World) (stdin : list answer) :
  exists r c script,
    main w stdin = (r, c) /\
    Forall from_menu script /\
    game c = session script (init w) /\
    ending r.
Proof.
  unfold main. rewrite sh_bind_print.
  apply (main_loop_is_session (List.length stdin)). reflexivity.
Qed.


Lemma perform_tokens a g :
  from_menu a ->
  0 <= tokens (player_data g) /\ tokens (player_data g) mod 5 = 0 ->
  0 <= tokens (player_data (perform a g)) /\
  tokens (player_data (perform a g)) mod 5 = 0.
Proof.
  intros Ha [H0 H5]. destruct a as [| q | |].
  - rewrite perform_spin_data.
    assert (E : tokens (player_data (after_cooldown g)) = tokens (player_data g))
      by (destruct (after_cooldown_data g) as [-> | ->]; reflexivity).
    destruct (_ <=? 0); cbn [played tokens]; rewrite E; split; assumption.
  - rewrite perform_purchase_data. cbn [with_tokens tokens].
    cbn [from_menu] in Ha. split; [lia |].
    rewrite Z.mul_comm, Z.mod_add by lia. exact H5.
  - rewrite perform_status_data.
    destruct (after_cooldown_data g) as [-> | ->]; split; assumption.
  - rewrite perform_reset_data. cbn. split; [lia | reflexivity].
Qed.

Lemma session_sound script : forall g,
  Forall from_menu script ->
  sound_player (player_data g) ->
  sound_player (player_data (session script g)).
Proof.
  induction script as [| a script IH]; intros g Hs H; [exact H |].
  inversion Hs as [| ? ? Ha Hs']; subst.
  cbn [session fold_left]. apply IH; [exact Hs' |].
  destruct H as (Hr & Hl & Ht).
  split; [apply (perform_keeps_range a g Hr) |].
  split; [apply perform_keeps_ledger, Hl | apply perform_tokens; assumption].
Qed.

(** X15. The program keeps a player sound.  When there is no save file, or
    when the save file holds a dictionary with [attempts_left] in [0, 10],
    [balance = 10000 * total_wins], counters that are not negative and
    [tokens] a multiple of 5 that is not negative, then whatever the user
    types at the menu, the dictionary [main] ends with has all of that
    too. *)
Theorem main_keeps_player_sound (w : World) (stdin : list answer) :
  match disk w with
  | Some stored => sound_player stored
  | None => True
  end ->
  sound_player (player_data (game (snd (main w stdin)))).
Proof.
  intros H.
  destruct (run_of_main w stdin) as (r & c & script & E & Hs & Hg & _).
  rewrite E. cbn [snd]. rewrite Hg.
  apply session_sound; [exact Hs |].
  unfold init, load_data. destruct (disk w) as [stored |]; cbn [player_data].
  - exact H.
  - unfold sound_player, ledger_consistent, new_player. cbn. lia.
Qed.

Lemma main_keeps_player_sound_witness :
  let stdin := [types "1"; types "2"; types_number "3" 3; types "3";
                types "2"; types_number "-4" (-4); types "1"; types "5"] in
  sound_player (player_data (game (snd (main quiet_world stdin)))) /\
  player_data (game (snd (main quiet_world stdin)))
  = mkPlayerData 20000 15 8 0 2 0 /\
  fst (main quiet_world stdin) = Fine tt.
Proof.
  cbn zeta. split; [| split; reflexivity].
  apply (main_keeps_player_sound quiet_world). exact I.
Defined.


